(** * HMIS clinical records service: the store and its request handlers

    A shallow embedding of [python_hmis/app.py]: the SQLite schema created by
    [init_db], the statements the Flask handlers execute, and the handlers
    themselves as functions from a request and a database to a response and
    a database.

    Conventions.
    - TEXT is [string] (a byte string; SQLite's default BINARY collation
      compares bytes, which is what [String.compare] does), INTEGER is [Z],
      REAL is [Q] (exact rationals stand for the binary64 values), a nullable
      column is an [option].
    - A table is the list of its rows in rowid order together with the
      AUTOINCREMENT counter SQLite keeps in [sqlite_sequence].
    - A form ([request.form]) and a JSON body ([request.get_json]) are finite
      maps from field names to strings; a missing body is the empty map.
      JSON values of other types are not represented.
    - A handler that lets an exception escape never reaches [conn.commit()]:
      the database it returns is the one it was given. *)

From Stdlib Require Import ZArith QArith String Ascii.
From stdpp Require Import gmap strings list sorting pretty.

Local Open Scope string_scope.
Local Open Scope list_scope.
Local Open Scope Z_scope.

(** ** Python built-ins used by the handlers *)

Module Py.

(** The exceptions that occur in the handlers. *)
Inductive exn :=
  | NameError (name : string)
  | ValueError
  | OverflowError
  | IndexError (msg : string)
  | IntegrityError (msg : string)
  | OperationalError (msg : string)
  | ProgrammingError (msg : string).

(** Sequencing of computations that may raise. *)
Definition bind {A B} (x : exn + A) (k : A → exn + B) : exn + B :=
  match x with inl e => inl e | inr a => k a end.

Fixpoint mapM {A B} (f : A → exn + B) (l : list A) : exn + list B :=
  match l with
  | [] => inr []
  | a :: l => bind (f a) (λ b, bind (mapM f l) (λ bs, inr (b :: bs)))
  end.

Fixpoint foldM {A S} (f : A → S → exn + S) (l : list A) (s : S) : exn + S :=
  match l with
  | [] => inr s
  | a :: l => bind (f a s) (foldM f l)
  end.

(** [str.isspace] on the ASCII range: tab, newline, vertical tab, form feed,
    carriage return, the four separators 0x1c..0x1f and the space. *)
Definition isspace (c : ascii) : bool :=
  let n := Z.of_N (N_of_ascii c) in
  ((9 <=? n) && (n <=? 13)) || ((28 <=? n) && (n <=? 32)).

Fixpoint lstrip (s : string) : string :=
  match s with
  | String c r => if isspace c then lstrip r else s
  | EmptyString => EmptyString
  end.

(** [rstrip] drops a character when it is a space and everything after it
    has been dropped. *)
Fixpoint rstrip (s : string) : string :=
  match s with
  | String c r =>
      match rstrip r with
      | EmptyString => if isspace c then EmptyString else String c EmptyString
      | r' => String c r'
      end
  | EmptyString => EmptyString
  end.

(** [s.strip()] *)
Definition strip (s : string) : string := rstrip (lstrip s).

(** Truth value of a string: [bool(s)]. *)
Definition truthy (s : string) : bool :=
  match s with EmptyString => false | _ => true end.

Definition digit_of (c : ascii) : option Z :=
  let n := Z.of_N (N_of_ascii c) in
  if (48 <=? n) && (n <=? 57) then Some (n - 48) else None.

(** The digit part of an integer literal: decimal digits, single underscores
    allowed between two digits. [seen] tells whether the previous character
    was a digit. *)
Fixpoint int_digits (acc : Z) (seen : bool) (s : string) : option Z :=
  match s with
  | EmptyString => if seen then Some acc else None
  | String c r =>
      if Ascii.eqb c "_" then
        if seen then int_digits acc false r else None
      else
        match digit_of c with
        | Some d => int_digits (10 * acc + d) true r
        | None => None
        end
  end.

(** [int(s)] for a string of ASCII characters: surrounding whitespace is
    ignored, one sign is allowed; [None] stands for [ValueError]. (The limit
    recent Pythons put on the number of digits is left out.) *)
Definition int (s : string) : option Z :=
  match strip s with
  | String "+" r => int_digits 0 false r
  | String "-" r => Z.opp <$> int_digits 0 false r
  | t => int_digits 0 false t
  end.

(** [s.replace(a, b)] for single characters. *)
Fixpoint replace (a b : ascii) (s : string) : string :=
  match s with
  | String c r => String (if Ascii.eqb c a then b else c) (replace a b r)
  | EmptyString => EmptyString
  end.

(** [x or dflt] for an optional string [x]. *)
Definition or_ (x : option string) (dflt : string) : string :=
  match x with
  | Some s => if truthy s then s else dflt
  | None => dflt
  end.

(** [(d.get(k) or dflt).strip()] *)
Definition field_or (d : gmap string string) (k dflt : string) : string :=
  strip (or_ (d !! k) dflt).

(** [(d.get(k) or "").strip()], the way most handlers read a field;
    [d.get(k, "").strip()] is the same on string values. *)
Definition field (d : gmap string string) (k : string) : string :=
  field_or d k "".

(** The line feed. *)
Definition nl : string := String (ascii_of_nat 10) EmptyString.

(** [x or None] for a string. *)
Definition or_None (s : string) : option string :=
  if truthy s then Some s else None.

End Py.

(** ** SQLite tables *)

Module Sqlite.

(** Values bound to an INTEGER column must fit in 64 bits; the [sqlite3]
    module raises [OverflowError] otherwise. *)
Definition in_int64 (n : Z) : bool :=
  (-9223372036854775808 <=? n) && (n <=? 9223372036854775807).

(** A table declared with [INTEGER PRIMARY KEY AUTOINCREMENT]: its rows in
    rowid order and the largest rowid it ever held. *)
Record table (R : Type) := Table { rows : list R; seq : Z }.
Arguments Table {R} _ _.
Arguments rows {R} _.
Arguments seq {R} _.

Class Rowid (R : Type) := rowid : R → Z.

Definition empty {R} : table R := Table [] 0.

Definition max_rowid `{Rowid R} (l : list R) : Z :=
  foldr (λ r m, Z.max (rowid r) m) 0 l.

(** The rowid AUTOINCREMENT gives to the next row. *)
Definition next_rowid `{Rowid R} (t : table R) : Z :=
  Z.max (seq t) (max_rowid (rows t)) + 1.

(** [INSERT] of a row whose id column is left to SQLite; the result carries
    [cursor.lastrowid]. *)
Definition insert `{Rowid R} (mk : Z → R) (t : table R) : Z * table R :=
  let i := next_rowid t in (i, Table (rows t ++ [mk i]) i).

(** [UPDATE t SET ... WHERE P] and [DELETE FROM t WHERE P]. *)
Definition update {R} (P : R → Prop) `{∀ r, Decision (P r)}
    (f : R → R) (t : table R) : table R :=
  Table ((λ r, if decide (P r) then f r else r) <$> rows t) (seq t).

Definition delete {R} (P : R → Prop) `{∀ r, Decision (P r)}
    (t : table R) : table R :=
  Table (filter (λ r, ¬ P r) (rows t)) (seq t).

(** [SELECT ... WHERE P] followed by [fetchone()]. *)
Definition fetchone {R} (P : R → Prop) `{∀ r, Decision (P r)}
    (l : list R) : option R :=
  head (filter P l).

(** [a / b] on REAL operands: NULL when the divisor is zero. *)
Definition div (a b : Q) : option Q :=
  if Qeq_bool b 0 then None else Some (a / b)%Q.

(** [MAX(x)] over TEXT values, NULL on no rows. *)
Definition max_text (l : list string) : option string :=
  foldr (λ s m, match m with
                | Some t => if String.ltb t s then Some s else Some t
                | None => Some s
                end) None l.

End Sqlite.

Import Sqlite.

(** ** The schema of [init_db] *)

Record patient := Patient {
  p_usn : string;             (* TEXT PRIMARY KEY *)
  p_full_name : string;
  p_age : Z;
  p_gender : string;
  p_contact : string;
  p_address : string }.

Record vital := Vital {
  v_id : Z;
  v_usn : string;             (* REFERENCES patients(usn) ON DELETE CASCADE *)
  v_weight : Q;
  v_height : Q;
  v_bmi : option Q;           (* GENERATED ALWAYS AS (...) STORED *)
  v_bp_systolic : Z;
  v_bp_diastolic : Z;
  v_heart_rate : Z;
  v_temperature : Q;
  v_respiratory_rate : option Z;
  v_oxygen_saturation : option Z;
  v_notes : option string;
  v_recorded_at : string;
  v_recorded_by : string }.

Record prescription := Prescription {
  rx_id : Z;
  rx_usn : string;            (* REFERENCES patients(usn) ON DELETE CASCADE *)
  rx_notes : string;
  rx_prescribed_at : string }.

Record encounter := Encounter {
  en_id : Z;
  en_usn : string;            (* REFERENCES patients(usn) ON DELETE CASCADE *)
  en_dt : string;
  en_type : string;
  en_clinician : option string;
  en_reason : option string;
  en_notes : option string }.

Record problem := Problem {
  pb_id : Z;
  pb_usn : string;            (* REFERENCES patients(usn) ON DELETE CASCADE *)
  pb_code : option string;
  pb_description : string;
  pb_onset_date : option string;
  pb_status : string;
  pb_recorded_at : string }.

Record allergy := Allergy {
  al_id : Z;
  al_usn : string;            (* REFERENCES patients(usn) ON DELETE CASCADE *)
  al_substance : string;
  al_reaction : option string;
  al_severity : option string;
  al_recorded_at : string }.

Record medication := Medication {
  m_id : Z;
  m_name : string;
  m_generic_name : option string;
  m_form : option string;
  m_strength : option string;
  m_is_active : Z }.

Record prescription_item := PrescriptionItem {
  pi_id : Z;
  pi_prescription_id : Z;     (* REFERENCES prescriptions(id) ON DELETE CASCADE *)
  pi_medication_id : Z;       (* REFERENCES medications(id) *)
  pi_dose : option string;
  pi_route : option string;
  pi_frequency : option string;
  pi_duration_days : option Z;
  pi_instructions : option string }.

Record lab_test := LabTest {
  lt_id : Z;
  lt_code : string;           (* UNIQUE *)
  lt_name : string;
  lt_specimen : option string;
  lt_unit : option string;
  lt_ref_range : option string;
  lt_is_active : Z }.

Record lab_order := LabOrder {
  lo_id : Z;
  lo_usn : string;            (* REFERENCES patients(usn) ON DELETE CASCADE *)
  lo_encounter_id : option Z; (* REFERENCES encounters(id) ON DELETE SET NULL *)
  lo_ordered_at : string;
  lo_status : string;
  lo_notes : option string }.

Record lab_order_item := LabOrderItem {
  loi_id : Z;
  loi_lab_order_id : Z;       (* REFERENCES lab_orders(id) ON DELETE CASCADE *)
  loi_lab_test_id : Z;        (* REFERENCES lab_tests(id) *)
  loi_status : string;
  loi_result_value : option string;
  loi_result_notes : option string;
  loi_result_at : option string }.

Record appointment := Appointment {
  ap_id : Z;
  ap_usn : string;            (* REFERENCES patients(usn) ON DELETE CASCADE *)
  ap_starts_at : string;
  ap_ends_at : string;
  ap_status : string;
  ap_title : option string;
  ap_clinician : option string;
  ap_notes : option string }.

#[global] Instance vital_rowid : Rowid vital := v_id.
#[global] Instance prescription_rowid : Rowid prescription := rx_id.
#[global] Instance encounter_rowid : Rowid encounter := en_id.
#[global] Instance problem_rowid : Rowid problem := pb_id.
#[global] Instance allergy_rowid : Rowid allergy := al_id.
#[global] Instance medication_rowid : Rowid medication := m_id.
#[global] Instance prescription_item_rowid : Rowid prescription_item := pi_id.
#[global] Instance lab_test_rowid : Rowid lab_test := lt_id.
#[global] Instance lab_order_rowid : Rowid lab_order := lo_id.
#[global] Instance lab_order_item_rowid : Rowid lab_order_item := loi_id.
#[global] Instance appointment_rowid : Rowid appointment := ap_id.

(** The database file. The inventory and audit tables of the schema are
    read and written by no handler and are left out. *)
Record db := Db {
  patients : list patient;
  vitals : table vital;
  prescriptions : table prescription;
  encounters : table encounter;
  problems : table problem;
  allergies : table allergy;
  medications : table medication;
  prescription_items : table prescription_item;
  lab_tests : table lab_test;
  lab_orders : table lab_order;
  lab_order_items : table lab_order_item;
  appointments : table appointment }.

Definition empty_db : db :=
  Db [] empty empty empty empty empty empty empty empty empty empty empty.

Definition set_patients (x : list patient) (d : db) : db :=
  Db x (vitals d) (prescriptions d) (encounters d) (problems d) (allergies d)
     (medications d) (prescription_items d) (lab_tests d) (lab_orders d)
     (lab_order_items d) (appointments d).

Definition set_vitals (x : table vital) (d : db) : db :=
  Db (patients d) x (prescriptions d) (encounters d) (problems d) (allergies d)
     (medications d) (prescription_items d) (lab_tests d) (lab_orders d)
     (lab_order_items d) (appointments d).

Definition set_prescriptions (x : table prescription) (d : db) : db :=
  Db (patients d) (vitals d) x (encounters d) (problems d) (allergies d)
     (medications d) (prescription_items d) (lab_tests d) (lab_orders d)
     (lab_order_items d) (appointments d).

Definition set_medications (x : table medication) (d : db) : db :=
  Db (patients d) (vitals d) (prescriptions d) (encounters d) (problems d)
     (allergies d) x (prescription_items d) (lab_tests d) (lab_orders d)
     (lab_order_items d) (appointments d).

Definition set_prescription_items (x : table prescription_item) (d : db) : db :=
  Db (patients d) (vitals d) (prescriptions d) (encounters d) (problems d)
     (allergies d) (medications d) x (lab_tests d) (lab_orders d)
     (lab_order_items d) (appointments d).

Definition set_lab_tests (x : table lab_test) (d : db) : db :=
  Db (patients d) (vitals d) (prescriptions d) (encounters d) (problems d)
     (allergies d) (medications d) (prescription_items d) x (lab_orders d)
     (lab_order_items d) (appointments d).

Definition set_lab_orders (x : table lab_order) (d : db) : db :=
  Db (patients d) (vitals d) (prescriptions d) (encounters d) (problems d)
     (allergies d) (medications d) (prescription_items d) (lab_tests d) x
     (lab_order_items d) (appointments d).

Definition set_lab_order_items (x : table lab_order_item) (d : db) : db :=
  Db (patients d) (vitals d) (prescriptions d) (encounters d) (problems d)
     (allergies d) (medications d) (prescription_items d) (lab_tests d)
     (lab_orders d) x (appointments d).

Definition set_appointments (x : table appointment) (d : db) : db :=
  Db (patients d) (vitals d) (prescriptions d) (encounters d) (problems d)
     (allergies d) (medications d) (prescription_items d) (lab_tests d)
     (lab_orders d) (lab_order_items d) x.

(** ** Responses *)

Inductive jvalue := JStr (s : string) | JInt (n : Z) | JBool (b : bool).

Inductive response :=
  | Redirect (args : list (string * string))
      (* redirect(url_for("index", **args)) *)
  | Json (body : list (string * jvalue)) (status : Z)
      (* jsonify(body), status *)
  | Raised (e : Py.exn).
      (* the exception leaves the handler: nothing is committed *)

(** ** Statements *)

(** [SELECT 1 FROM patients WHERE usn=?] with [fetchone()]. *)
Definition select_patient (usn : string) (d : db) : option patient :=
  fetchone (λ p, p_usn p = usn) (patients d).

Definition fk_failed : Py.exn := Py.IntegrityError "FOREIGN KEY constraint failed".

(** [INSERT INTO patients(usn, full_name, age, gender, contact, address)] *)
Definition insert_patient (r : patient) (d : db) : Py.exn + db :=
  if negb (in_int64 (p_age r)) then inl Py.OverflowError
  else if select_patient (p_usn r) d is Some _
  then inl (Py.IntegrityError "UNIQUE constraint failed: patients.usn")
  else inr (set_patients (patients d ++ [r]) d).

(** The generated column of [vitals]:
    [weight / ((height/100.0) * (height/100.0))]. *)
Definition bmi (weight height : Q) : option Q :=
  h1 ← div height 100; h2 ← div height 100; div weight (h1 * h2)%Q.

(** [INSERT INTO vitals(usn, weight, height, blood_pressure_systolic,
    blood_pressure_diastolic, heart_rate, temperature, respiratory_rate,
    oxygen_saturation, notes, recorded_at)] *)
Definition insert_vital (usn : string) (weight height : Q) (sys dia hr : Z)
    (temp : Q) (rr o2 : option Z) (notes recorded_at : string) (d : db)
    : Py.exn + db :=
  if negb (forallb in_int64 ([sys; dia; hr] ++ option_list rr ++ option_list o2))
  then inl Py.OverflowError
  else if select_patient usn d is Some _ then
    inr (set_vitals
           (insert (λ i, Vital i usn weight height (bmi weight height) sys dia
                           hr temp rr o2 (Some notes) recorded_at "System User")
                   (vitals d)).2 d)
  else inl fk_failed.

(** [INSERT INTO prescriptions(usn, notes, prescribed_at)] *)
Definition insert_prescription (usn notes prescribed_at : string) (d : db)
    : Py.exn + db :=
  if select_patient usn d is Some _ then
    inr (set_prescriptions
           (insert (λ i, Prescription i usn notes prescribed_at)
                   (prescriptions d)).2 d)
  else inl fk_failed.

(** [INSERT INTO medications(name)] *)
Definition insert_medication (name : string) (d : db) : Z * db :=
  let '(i, t) := insert (λ i, Medication i name None None None 1)
                        (medications d) in
  (i, set_medications t d).

(** [INSERT INTO prescription_items(prescription_id, medication_id, dose,
    route, frequency, duration_days, instructions)] *)
Definition insert_prescription_item (rx med : Z) (dose route freq : string)
    (dur : option Z) (instr : option string) (d : db) : Py.exn + db :=
  if negb (forallb in_int64 (rx :: option_list dur))
  then inl Py.OverflowError
  else if fetchone (λ r, rx_id r = rx) (rows (prescriptions d)) is Some _ then
    if fetchone (λ m, m_id m = med) (rows (medications d)) is Some _ then
      inr (set_prescription_items
             (insert (λ i, PrescriptionItem i rx med (Some dose) (Some route)
                             (Some freq) dur instr)
                     (prescription_items d)).2 d)
    else inl fk_failed
  else inl fk_failed.

(** [INSERT INTO appointments(usn, starts_at, ends_at, status, title,
    clinician, notes)] *)
Definition insert_appointment (usn starts_at ends_at status : string)
    (title clinician notes : option string) (d : db) : Py.exn + (Z * db) :=
  if select_patient usn d is Some _ then
    let '(i, t) := insert (λ i, Appointment i usn starts_at ends_at status
                                  title clinician notes) (appointments d) in
    inr (i, set_appointments t d)
  else inl fk_failed.

(** [INSERT INTO lab_orders(usn, ordered_at, status, notes)] *)
Definition insert_lab_order (usn ordered_at status : string)
    (notes : option string) (d : db) : Py.exn + (Z * db) :=
  if select_patient usn d is Some _ then
    let '(i, t) := insert (λ i, LabOrder i usn None ordered_at status notes)
                          (lab_orders d) in
    inr (i, set_lab_orders t d)
  else inl fk_failed.

(** [INSERT INTO lab_order_items(lab_order_id, lab_test_id)]; the status
    takes its default ['Ordered'], the result columns are NULL. *)
Definition insert_lab_order_item (order test : Z) (d : db) : Py.exn + db :=
  if fetchone (λ o, lo_id o = order) (rows (lab_orders d)) is Some _ then
    if fetchone (λ t, lt_id t = test) (rows (lab_tests d)) is Some _ then
      inr (set_lab_order_items
             (insert (λ i, LabOrderItem i order test "Ordered" None None None)
                     (lab_order_items d)).2 d)
    else inl fk_failed
  else inl fk_failed.

(** [INSERT INTO lab_tests(code, name, specimen, unit, ref_range)];
    [code] is UNIQUE. *)
Definition insert_lab_test (code name : string)
    (specimen unit ref_range : option string) (d : db) : Py.exn + db :=
  if fetchone (λ t, lt_code t = code) (rows (lab_tests d)) is Some _
  then inl (Py.IntegrityError "UNIQUE constraint failed: lab_tests.code")
  else inr (set_lab_tests
              (insert (λ i, LabTest i code name specimen unit ref_range 1)
                      (lab_tests d)).2 d).

(** A lab order that points to one of the encounters [gone]. *)
Definition in_encounters (gone : list Z) (o : lab_order) : Prop :=
  from_option (λ e, e ∈ gone) False (lo_encounter_id o).

#[global] Instance in_encounters_dec gone o : Decision (in_encounters gone o).
Proof. unfold in_encounters. destruct (lo_encounter_id o); simpl; apply _. Defined.

(** [DELETE FROM patients WHERE usn=?] with foreign keys enforced: every
    deleted patient row takes with it the rows of the seven tables that
    reference it ON DELETE CASCADE; the deleted prescriptions and lab orders
    take their items; a lab order that stays and points to a deleted
    encounter gets a NULL [encounter_id]. *)
Definition delete_patient (usn : string) (d : db) : db :=
  if select_patient usn d is Some _ then
    let gone_rx := rx_id <$> filter (λ r, rx_usn r = usn) (rows (prescriptions d)) in
    let gone_en := en_id <$> filter (λ e, en_usn e = usn) (rows (encounters d)) in
    let gone_lo := lo_id <$> filter (λ o, lo_usn o = usn) (rows (lab_orders d)) in
    Db (filter (λ p, ¬ p_usn p = usn) (patients d))
       (delete (λ v, v_usn v = usn) (vitals d))
       (delete (λ r, rx_usn r = usn) (prescriptions d))
       (delete (λ e, en_usn e = usn) (encounters d))
       (delete (λ b, pb_usn b = usn) (problems d))
       (delete (λ a, al_usn a = usn) (allergies d))
       (medications d)
       (delete (λ i, pi_prescription_id i ∈ gone_rx) (prescription_items d))
       (lab_tests d)
       (update (in_encounters gone_en)
               (λ o, LabOrder (lo_id o) (lo_usn o) None (lo_ordered_at o)
                       (lo_status o) (lo_notes o))
               (delete (λ o, lo_usn o = usn) (lab_orders d)))
       (delete (λ i, loi_lab_order_id i ∈ gone_lo) (lab_order_items d))
       (delete (λ a, ap_usn a = usn) (appointments d))
  else d.

(** [UPDATE patients SET full_name=?, age=?, gender=?, contact=?, address=?
    WHERE usn=?] *)
Definition update_patient (usn full_name : string) (age : Z)
    (gender contact address : string) (d : db) : Py.exn + db :=
  if negb (in_int64 age) then inl Py.OverflowError
  else inr (set_patients
              ((λ p, if decide (p_usn p = usn)
                     then Patient (p_usn p) full_name age gender contact address
                     else p) <$> patients d) d).

(** ** Handlers that write *)

Definition patient_fields : list string :=
  ["usn"; "full_name"; "age"; "gender"; "contact"; "address"].

(** [POST /patient/create] *)
Definition patient_create (form : gmap string string) (d : db) : response * db :=
  let data := Py.field form in
  if negb (forallb (λ k, Py.truthy (data k)) patient_fields) then
    (Redirect [("e", "All patient fields are required")], d)
  else
    match (if Py.truthy (data "age") then Py.int (data "age") else Some 0) with
    | None => (Redirect [("e", "Age must be a number")], d)
    | Some age =>
        match insert_patient
                (Patient (data "usn") (data "full_name") age (data "gender")
                         (data "contact") (data "address")) d with
        | inr d' => (Redirect [("m", "Patient created")], d')
        | inl (Py.IntegrityError _) => (Redirect [("e", "USN must be unique")], d)
        | inl e => (Raised e, d)
        end
    end.

(** [POST /patient/update] *)
Definition patient_update (form : gmap string string) (d : db) : response * db :=
  let usn := Py.field form "usn" in
  let full_name := Py.field form "full_name" in
  let contact := Py.field form "contact" in
  let address := Py.field form "address" in
  let gender := Py.field form "gender" in
  let age_raw := Py.field form "age" in
  if negb (forallb Py.truthy [usn; full_name; contact; address; gender; age_raw])
  then (Redirect [("e", "All fields required for update")], d)
  else
    match Py.int age_raw with
    | None => (Redirect [("e", "Age must be a number")], d)
    | Some age =>
        match update_patient usn full_name age gender contact address d with
        | inr d' => (Redirect [("m", "Patient updated"); ("q", usn)], d')
        | inl e => (Raised e, d)
        end
    end.

(** [POST /patient/delete/<usn>] *)
Definition patient_delete (usn : string) (d : db) : response * db :=
  (Redirect [("m", "Patient deleted")], delete_patient usn d).

(** [POST /api/patients] *)
Definition api_patients_post (data : gmap string string) (d : db)
    : response * db :=
  let usn := Py.field data "usn" in
  let full_name := Py.field data "fullName" in
  let age := default "" (data !! "age") in
  let gender := Py.field data "gender" in
  let contact := Py.field data "phone" in
  let address := Py.field data "address" in
  if negb (forallb Py.truthy [usn; full_name; age; gender]) then
    (Json [("error", JStr "Required fields missing")] 400, d)
  else
    match Py.int age with
    | None => (Json [("error", JStr "Age must be a number")] 400, d)
    | Some age =>
        match insert_patient (Patient usn full_name age gender contact address) d with
        | inr d' => (Json [("message", JStr "Patient created successfully")] 201, d')
        | inl (Py.IntegrityError _) =>
            (Json [("error", JStr "USN already exists")] 409, d)
        | inl e => (Raised e, d)
        end
    end.

(** [int(s) if s else None] inside a [try]: the outer [None] is the
    [ValueError]. *)
Definition int_if_given (s : string) : option (option Z) :=
  if Py.truthy s then Some <$> Py.int s else Some None.

Section Vitals.

(** Python's [float] on strings, restricted to the finite values: [None]
    stands for [ValueError]. Its literal syntax is not part of this
    development; the handlers are stated for any such function. *)
Context (float : string → option Q).

(** [POST /vitals/create] *)
Definition vitals_create (form : gmap string string) (now : string) (d : db)
    : response * db :=
  let usn := Py.field form "usn" in
  let weight := Py.field_or form "weight" "0" in
  let height := Py.field_or form "height" "0" in
  let bp_systolic := Py.field_or form "blood_pressure_systolic" "0" in
  let bp_diastolic := Py.field_or form "blood_pressure_diastolic" "0" in
  let heart_rate := Py.field_or form "heart_rate" "0" in
  let temperature := Py.field_or form "temperature" "0" in
  let respiratory_rate := Py.field form "respiratory_rate" in
  let oxygen_saturation := Py.field form "oxygen_saturation" in
  let notes := Py.field form "notes" in
  if negb (forallb Py.truthy [usn; weight; height; bp_systolic; bp_diastolic;
                              heart_rate; temperature])
  then (Redirect [("e", "Required vitals fields missing"); ("q", usn)], d)
  else
    match float weight, float height, Py.int bp_systolic, Py.int bp_diastolic,
          Py.int heart_rate, float temperature,
          int_if_given respiratory_rate, int_if_given oxygen_saturation with
    | Some weight_f, Some height_f, Some bp_sys_i, Some bp_dia_i,
      Some hr_i, Some temp_f, Some resp_rate_i, Some o2_sat_i =>
        if select_patient usn d is Some _ then
          match insert_vital usn weight_f height_f bp_sys_i bp_dia_i hr_i temp_f
                             resp_rate_i o2_sat_i notes now d with
          | inr d' => (Redirect [("m", "Vitals saved"); ("q", usn)], d')
          | inl e => (Raised e, d)
          end
        else (Redirect [("e", "Patient not found"); ("q", usn)], d)
    | _, _, _, _, _, _, _, _ =>
        (Redirect [("e", "Vitals must be numeric"); ("q", usn)], d)
    end.

(** [POST /api/vitals] *)
Definition api_vitals_post (data : gmap string string) (now : string) (d : db)
    : response * db :=
  let usn := Py.field data "usn" in
  let get k := default "" (data !! k) in
  let required_fields :=
    ["weight"; "height"; "bloodPressureSystolic"; "bloodPressureDiastolic";
     "heartRate"; "temperature"] in
  if negb (Py.truthy usn) || negb (forallb (λ k, Py.truthy (get k)) required_fields)
  then (Json [("error", JStr "Required vitals fields missing")] 400, d)
  else
    match float (get "weight"), float (get "height"),
          Py.int (get "bloodPressureSystolic"),
          Py.int (get "bloodPressureDiastolic"), Py.int (get "heartRate"),
          float (get "temperature"), int_if_given (get "respiratoryRate"),
          int_if_given (get "oxygenSaturation") with
    | Some weight, Some height, Some bp_sys, Some bp_dia,
      Some heart_rate, Some temperature, Some resp_rate, Some o2_sat =>
        let notes := Py.field data "notes" in
        if select_patient usn d is Some _ then
          match insert_vital usn weight height bp_sys bp_dia heart_rate
                             temperature resp_rate o2_sat notes now d with
          | inr d' => (Json [("message", JStr "Vitals recorded successfully")] 201, d')
          | inl e => (Raised e, d)
          end
        else (Json [("error", JStr "Patient not found")] 404, d)
    | _, _, _, _, _, _, _, _ =>
        (Json [("error", JStr "Invalid numeric values")] 400, d)
    end.

(** [POST /vitals/create/legacy]: its INSERT names the columns
    [blood_pressure] and [pulse], which the [vitals] table does not have. *)
Definition vitals_create_legacy (form : gmap string string) (d : db)
    : response * db :=
  let usn := Py.field form "usn" in
  let bp := Py.field form "blood_pressure" in
  let pulse := Py.field_or form "pulse" "0" in
  let temp := Py.field_or form "temperature" "0" in
  let weight := Py.field_or form "weight" "0" in
  let height := Py.field_or form "height" "0" in
  if negb (forallb Py.truthy [usn; bp; pulse; temp; weight; height])
  then (Redirect [("e", "All vitals are required"); ("q", usn)], d)
  else
    match Py.int pulse, float temp, float weight, float height with
    | Some _, Some _, Some _, Some _ =>
        if select_patient usn d is Some _ then
          (Raised (Py.OperationalError
                     "table vitals has no column named blood_pressure"), d)
        else (Redirect [("e", "Patient not found"); ("q", usn)], d)
    | _, _, _, _ => (Redirect [("e", "Vitals must be numeric"); ("q", usn)], d)
    end.

End Vitals.

(** [POST /prescription/create] *)
Definition prescription_create (form : gmap string string) (now : string)
    (d : db) : response * db :=
  let usn := Py.field form "usn" in
  let notes := Py.field form "notes" in
  if negb (Py.truthy usn && Py.truthy notes) then
    (Redirect [("e", "USN and notes required"); ("q", usn)], d)
  else if select_patient usn d is Some _ then
    match insert_prescription usn notes now d with
    | inr d' => (Redirect [("m", "Prescription saved"); ("q", usn)], d')
    | inl e => (Raised e, d)
    end
  else (Redirect [("e", "Patient not found"); ("q", usn)], d).

(** One line of the notes [api_prescriptions] composes; [i] counts the
    medications from 1, the skipped ones included. *)
Definition medication_line (i : nat) (med : gmap string string) : string :=
  let get k := default "" (med !! k) in
  if Py.truthy (get "name") && Py.truthy (get "dosage") && Py.truthy (get "frequency")
  then pretty (Z.of_nat i + 1) +:+ ". " +:+ get "name" +:+ " - "
       +:+ get "dosage" +:+ ", " +:+ get "frequency"
       +:+ (if Py.truthy (get "duration") then ", for " +:+ get "duration" else "")
       +:+ (if Py.truthy (get "instructions")
            then " (" +:+ get "instructions" +:+ ")" else "")
       +:+ Py.nl
  else "".

Definition prescription_notes (diagnosis : string)
    (medications : list (gmap string string)) (notes follow_up_date : string)
    : string :=
  "Diagnosis: " +:+ diagnosis +:+ Py.nl +:+ Py.nl
  +:+ (if medications is [] then ""
       else "Medications:" +:+ Py.nl
            +:+ foldr String.append "" (imap medication_line medications))
  +:+ (if Py.truthy notes then Py.nl +:+ "Additional Notes: " +:+ notes else "")
  +:+ (if Py.truthy follow_up_date
       then Py.nl +:+ "Follow-up Date: " +:+ follow_up_date else "").

(** [POST /api/prescriptions]; [medications] is the list under the key of
    that name, the other keys hold strings. *)
Definition api_prescriptions_post (data : gmap string string)
    (medications : list (gmap string string)) (now : string) (d : db)
    : response * db :=
  let usn := Py.field data "usn" in
  let diagnosis := Py.field data "diagnosis" in
  let notes := Py.field data "notes" in
  let follow_up_date := Py.field data "followUpDate" in
  if negb (Py.truthy usn) || negb (Py.truthy diagnosis) then
    (Json [("error", JStr "USN and diagnosis are required")] 400, d)
  else if select_patient usn d is Some _ then
    match insert_prescription usn
            (prescription_notes diagnosis medications notes follow_up_date)
            now d with
    | inr d' => (Json [("message", JStr "Prescription created successfully")] 201, d')
    | inl e => (Raised e, d)
    end
  else (Json [("error", JStr "Patient not found")] 404, d).

(** [POST /prescription/item/create] *)
Definition prescription_item_create (form : gmap string string) (d : db)
    : response * db :=
  let prescription_id := Py.field form "prescription_id" in
  let med_name := Py.field form "med_name" in
  let dose := Py.field form "dose" in
  let route := Py.field form "route" in
  let frequency := Py.field form "frequency" in
  let duration_days := Py.field form "duration_days" in
  let instructions := Py.field form "instructions" in
  if negb (Py.truthy prescription_id && Py.truthy med_name) then
    (Redirect [("e", "Prescription and medication required")], d)
  else
    (* Upsert medication by name *)
    let '(med_id, d1) :=
      match fetchone (λ m, m_name m = med_name) (rows (medications d)) with
      | Some med => (m_id med, d)
      | None => insert_medication med_name d
      end in
    let dur_i :=
      if Py.truthy duration_days then Py.int duration_days else None in
    match Py.int prescription_id with
    | None => (Raised Py.ValueError, d)
    | Some rx =>
        match insert_prescription_item rx med_id dose route frequency dur_i
                (Py.or_None instructions) d1 with
        | inr d' => (Redirect [("m", "Medication added to prescription")], d')
        | inl e => (Raised e, d)
        end
    end.

(** [POST /api/appointments] *)
Definition api_appointments_create (data : gmap string string) (d : db)
    : response * db :=
  let usn := Py.field data "usn" in
  let starts_at := Py.field data "starts_at" in
  let ends_at := Py.field data "ends_at" in
  let title := Py.or_None (Py.field data "title") in
  let clinician := Py.or_None (Py.field data "clinician") in
  let notes := Py.or_None (Py.field data "notes") in
  if negb (Py.truthy usn && Py.truthy starts_at && Py.truthy ends_at) then
    (Json [("error", JStr "usn, starts_at, ends_at required")] 400, d)
  else if select_patient usn d is Some _ then
    match insert_appointment usn starts_at ends_at "Scheduled" title clinician
                             notes d with
    | inr (appt_id, d') => (Json [("id", JInt appt_id)] 201, d')
    | inl e => (Raised e, d)
    end
  else (Json [("error", JStr "Patient not found")] 404, d).

(** [COALESCE(?, col)] *)
Definition coalesce {A} (x : option A) (col : A) : A := default col x.

(** [POST /api/appointments/<int:aid>/update] *)
Definition api_appointments_update (aid : Z) (data : gmap string string)
    (d : db) : response * db :=
  let status := Py.or_None (Py.field data "status") in
  let title := Py.or_None (Py.field data "title") in
  let clinician := Py.or_None (Py.field data "clinician") in
  let notes := Py.or_None (Py.field data "notes") in
  let starts_at := Py.or_None (Py.field data "starts_at") in
  let ends_at := Py.or_None (Py.field data "ends_at") in
  if negb (in_int64 aid) then (Raised Py.OverflowError, d)
  else
    (Json [("ok", JBool true)] 200,
     set_appointments
       (update (λ a, ap_id a = aid)
          (λ a, Appointment (ap_id a) (ap_usn a)
                  (coalesce starts_at (ap_starts_at a))
                  (coalesce ends_at (ap_ends_at a))
                  (coalesce status (ap_status a))
                  (if title is Some _ then title else ap_title a)
                  (if clinician is Some _ then clinician else ap_clinician a)
                  (if notes is Some _ then notes else ap_notes a))
          (appointments d)) d).

(** [POST /api/appointments/<int:aid>/delete] *)
Definition api_appointments_delete (aid : Z) (d : db) : response * db :=
  if negb (in_int64 aid) then (Raised Py.OverflowError, d)
  else (Json [("ok", JBool true)] 200,
        set_appointments (delete (λ a, ap_id a = aid) (appointments d)) d).

(** [POST /api/lab-orders] *)
Definition api_create_lab_order (data : gmap string string) (now : string)
    (d : db) : response * db :=
  let usn := Py.field data "usn" in
  let test_code := Py.field data "test_code" in
  let notes := Py.or_None (Py.field data "notes") in
  if negb (Py.truthy usn && Py.truthy test_code) then
    (Json [("error", JStr "usn and test_code required")] 400, d)
  else if select_patient usn d is Some _ then
    match fetchone (λ t, lt_code t = test_code ∧ lt_is_active t = 1)
                   (rows (lab_tests d)) with
    | None => (Json [("error", JStr "Lab test not found")] 404, d)
    | Some test =>
        match insert_lab_order usn now "Ordered" notes d with
        | inl e => (Raised e, d)
        | inr (order_id, d1) =>
            match insert_lab_order_item order_id (lt_id test) d1 with
            | inl e => (Raised e, d)
            | inr d' => (Json [("id", JInt order_id)] 201, d')
            end
        end
    end
  else (Json [("error", JStr "Patient not found")] 404, d).

(** The first UPDATE of [api_set_lab_result]:
    [UPDATE lab_order_items SET result_value = ?, result_notes = ?,
     result_at = ?, status = 'Completed' WHERE id = ?] *)
Definition set_item_result (item_id : Z) (value : string)
    (notes : option string) (now : string) (t : table lab_order_item)
    : table lab_order_item :=
  update (λ i, loi_id i = item_id)
         (λ i, LabOrderItem (loi_id i) (loi_lab_order_id i) (loi_lab_test_id i)
                 "Completed" (Some value) notes (Some now)) t.

(** [EXISTS (SELECT 1 FROM lab_order_items WHERE lab_order_id = lab_orders.id
     AND status <> 'Completed')] for the order [o]. *)
Definition has_open_item (items : list lab_order_item) (o : lab_order) : Prop :=
  Exists (λ i, loi_lab_order_id i = lo_id o ∧ loi_status i ≠ "Completed") items.

(** The second UPDATE:
    [UPDATE lab_orders SET status = CASE WHEN NOT EXISTS (...) THEN
     'Completed' ELSE status END
     WHERE id = (SELECT lab_order_id FROM lab_order_items WHERE id = ?)].
    The scalar subquery is the first matching row's column, or NULL, and
    NULL equals no id. *)
Definition refresh_order_status (item_id : Z) (items : list lab_order_item)
    (t : table lab_order) : table lab_order :=
  let owner := loi_lab_order_id <$> fetchone (λ i, loi_id i = item_id) items in
  update (λ o, owner = Some (lo_id o))
         (λ o, LabOrder (lo_id o) (lo_usn o) (lo_encounter_id o) (lo_ordered_at o)
                 (if decide (has_open_item items o) then lo_status o
                  else "Completed")
                 (lo_notes o)) t.

(** [POST /api/lab-results/<int:item_id>] *)
Definition api_set_lab_result (item_id : Z) (data : gmap string string)
    (now : string) (d : db) : response * db :=
  let value := Py.field data "result_value" in
  let notes := Py.or_None (Py.field data "result_notes") in
  if negb (in_int64 item_id) then (Raised Py.OverflowError, d)
  else
    let items := set_item_result item_id value notes now (lab_order_items d) in
    let orders := refresh_order_status item_id (rows items) (lab_orders d) in
    (Json [("ok", JBool true)] 200,
     set_lab_orders orders (set_lab_order_items items d)).

(** ** Initialisation *)

(** The values and expressions that occur in the argument of
    [cur.executemany] in [init_db]. *)
Inductive pyval := PNone | PStr (s : string) | PObj (what : string).

Inductive expr := Const (v : pyval) | Name (x : string).

(** The names [init_db] can see: its locals and what the module binds at
    top level (imports, constants, the application object and the
    functions). The builtins bind none of the names used below. *)
Definition module_names : list string :=
  ["annotations"; "csv"; "io"; "os"; "sqlite3"; "datetime"; "date"; "Any";
   "Dict"; "List"; "Optional"; "Tuple"; "Flask"; "redirect";
   "render_template"; "request"; "Response"; "url_for"; "jsonify";
   "APP_DIR"; "DB_PATH"; "app"; "get_db"; "init_db"; "ensure_db"; "index";
   "patient_create"; "patient_update"; "patient_delete"; "vitals_create";
   "api_patients"; "api_vitals"; "api_export_patients"; "api_export_vitals";
   "api_export_complete"; "api_prescriptions"; "api_export_prescriptions";
   "api_health"; "vitals_create_legacy"; "prescription_create";
   "prescription_item_create"; "prescription_print"; "api_appointments_list";
   "api_appointments_create"; "api_appointments_update";
   "api_appointments_delete"; "api_lab_tests"; "api_create_lab_order";
   "api_list_lab_orders"; "api_set_lab_result"; "api_metrics"; "export_csv"].

Definition init_db_scope : gmap string pyval :=
  list_to_map ((λ x, (x, PObj x)) <$> ("conn" :: "cur" :: module_names)).

Definition eval (scope : gmap string pyval) (e : expr) : Py.exn + pyval :=
  match e with
  | Const v => inr v
  | Name x => if scope !! x is Some v then inr v else inl (Py.NameError x)
  end.

(** The list of tuples passed to [executemany], as written in the source. *)
Definition seed_args : list (list expr) :=
  [ [Const (PStr "CBC"); Const (PStr "Complete Blood Count");
     Const (PStr "Blood"); Name "NULL"; Name "NULL"];
    [Const (PStr "GLU"); Const (PStr "Blood Glucose (Fasting)");
     Const (PStr "Blood"); Const (PStr "mg/dL"); Const (PStr "70-100")];
    [Const (PStr "LFT"); Const (PStr "Liver Function Test");
     Const (PStr "Blood"); Name "NULL"; Name "NULL"] ].

(** A Python value bound to a TEXT parameter. *)
Definition bind_text (v : pyval) : Py.exn + option string :=
  match v with
  | PNone => inr None
  | PStr s => inr (Some s)
  | PObj _ => inl (Py.ProgrammingError "Error binding parameter")
  end.

(** One round of [executemany("INSERT INTO lab_tests(code, name, specimen,
    unit, ref_range) VALUES(?,?,?,?,?)", ...)]. *)
Definition seed_one (params : list pyval) (d : db) : Py.exn + db :=
  match params with
  | [code; name; specimen; unit; ref_range] =>
      Py.bind (bind_text code) (λ code,
      Py.bind (bind_text name) (λ name,
      Py.bind (bind_text specimen) (λ specimen,
      Py.bind (bind_text unit) (λ unit,
      Py.bind (bind_text ref_range) (λ ref_range,
      match code, name with
      | Some code, Some name => insert_lab_test code name specimen unit ref_range d
      | _, _ => inl (Py.IntegrityError "NOT NULL constraint failed")
      end)))))
  | _ => inl (Py.ProgrammingError "Incorrect number of bindings supplied")
  end.

(** The database file: before the first [init_db] it holds no table. *)
Inductive store := NoTables | Tables (d : db).

(** [init_db], run with the names of [scope] in sight. [executescript]
    creates the missing tables and commits; then the catalogue is seeded if
    [SELECT COUNT(1) FROM lab_tests] is 0. The arguments of [executemany]
    are evaluated before the call. *)
Definition init_db_in (scope : gmap string pyval) (s : store)
    : option Py.exn * store :=
  let d := match s with NoTables => empty_db | Tables d => d end in
  if bool_decide (length (rows (lab_tests d)) = 0%nat) then
    match Py.bind (Py.mapM (Py.mapM (eval scope)) seed_args)
                  (λ args, Py.foldM seed_one args d) with
    | inl e => (Some e, Tables d)
    | inr d' => (None, Tables d')
    end
  else (None, Tables d).

Definition init_db : store → option Py.exn * store := init_db_in init_db_scope.

(** ** Requests *)

Inductive request :=
  | PatientCreate (form : gmap string string)
  | PatientUpdate (form : gmap string string)
  | PatientDelete (usn : string)
  | VitalsCreate (form : gmap string string)
  | ApiPatientsPost (data : gmap string string)
  | ApiVitalsPost (data : gmap string string)
  | ApiPrescriptionsPost (data : gmap string string)
                         (medications : list (gmap string string))
  | VitalsCreateLegacy (form : gmap string string)
  | PrescriptionCreate (form : gmap string string)
  | PrescriptionItemCreate (form : gmap string string)
  | ApiAppointmentsCreate (data : gmap string string)
  | ApiAppointmentsUpdate (aid : Z) (data : gmap string string)
  | ApiAppointmentsDelete (aid : Z)
  | ApiCreateLabOrder (data : gmap string string)
  | ApiSetLabResult (item_id : Z) (data : gmap string string).

Section Dispatch.

Context (float : string → option Q).

(** The routes that write, at the time [now] ([datetime.utcnow().isoformat()]). *)
Definition handle (now : string) (r : request) (d : db) : response * db :=
  match r with
  | PatientCreate form => patient_create form d
  | PatientUpdate form => patient_update form d
  | PatientDelete usn => patient_delete usn d
  | VitalsCreate form => vitals_create float form now d
  | ApiPatientsPost data => api_patients_post data d
  | ApiVitalsPost data => api_vitals_post float data now d
  | ApiPrescriptionsPost data meds => api_prescriptions_post data meds now d
  | VitalsCreateLegacy form => vitals_create_legacy float form d
  | PrescriptionCreate form => prescription_create form now d
  | PrescriptionItemCreate form => prescription_item_create form d
  | ApiAppointmentsCreate data => api_appointments_create data d
  | ApiAppointmentsUpdate aid data => api_appointments_update aid data d
  | ApiAppointmentsDelete aid => api_appointments_delete aid d
  | ApiCreateLabOrder data => api_create_lab_order data now d
  | ApiSetLabResult item_id data => api_set_lab_result item_id data now d
  end.

(** A request as Flask serves it: [ensure_db] runs [init_db] first
    ([@app.before_request]), and an exception there ends the request. *)
Definition serve (now : string) (r : request) (s : store) : response * store :=
  match init_db s with
  | (Some e, s') => (Raised e, s')
  | (None, NoTables) => (Raised (Py.OperationalError "no such table"), NoTables)
  | (None, Tables d) => let '(resp, d') := handle now r d in (resp, Tables d')
  end.

(** The databases the handlers can produce, starting from one that holds a
    catalogue of lab tests and nothing else. *)
Inductive reachable : db → Prop :=
  | reachable_initial d : d = set_lab_tests (lab_tests d) empty_db → reachable d
  | reachable_step now r d : reachable d → reachable (handle now r d).2.

End Dispatch.

(** ** Exports *)

(** The value of a column in a fetched row. *)
Inductive sqlvalue := SNull | SInt (n : Z) | SReal (x : Q) | SText (s : string).

Definition nullable {A} (f : A → sqlvalue) (x : option A) : sqlvalue :=
  from_option f SNull x.

(** A row of [SELECT v.* FROM vitals v]: the columns of the table, in the
    order of the schema. *)
Definition vital_columns (v : vital) : list (string * sqlvalue) :=
  [("id", SInt (v_id v)); ("usn", SText (v_usn v));
   ("weight", SReal (v_weight v)); ("height", SReal (v_height v));
   ("bmi", nullable SReal (v_bmi v));
   ("blood_pressure_systolic", SInt (v_bp_systolic v));
   ("blood_pressure_diastolic", SInt (v_bp_diastolic v));
   ("heart_rate", SInt (v_heart_rate v));
   ("temperature", SReal (v_temperature v));
   ("respiratory_rate", nullable SInt (v_respiratory_rate v));
   ("oxygen_saturation", nullable SInt (v_oxygen_saturation v));
   ("notes", nullable SText (v_notes v));
   ("recorded_at", SText (v_recorded_at v));
   ("recorded_by", SText (v_recorded_by v))].

Definition no_such_column : Py.exn := Py.IndexError "No item with that key".

(** [row[key]] on a [sqlite3.Row]. *)
Definition getitem (row : list (string * sqlvalue)) (key : string)
    : Py.exn + sqlvalue :=
  match list_find (λ c, c.1 = key) row with
  | Some (_, c) => inr c.2
  | None => inl no_such_column
  end.

(** The rows of the join of [export_csv]:
    [SELECT v.* FROM vitals v JOIN (SELECT usn, MAX(recorded_at) AS latest
     FROM vitals GROUP BY usn) m ON m.usn = v.usn AND m.latest = v.recorded_at] *)
Definition latest_vitals (d : db) : list vital :=
  filter (λ v, max_text (v_recorded_at <$>
                           filter (λ w, v_usn w = v_usn v) (rows (vitals d)))
               = Some (v_recorded_at v))
         (rows (vitals d)).

(** [vitals_map], filled by [vitals_map[v["usn"]] = v] over those rows. *)
Definition vitals_map (d : db) : gmap string vital :=
  foldl (λ m v, <[v_usn v := v]> m) ∅ (latest_vitals d).

Definition export_header : list string :=
  ["USN"; "Full Name"; "Age"; "Gender"; "Contact"; "Address";
   "BP"; "Pulse"; "Temp"; "Weight"; "Height"; "Vitals Time";
   "Prescription"; "Prescribed At"].

Definition complete_header : list string :=
  ["USN"; "Full Name"; "Age"; "Gender"; "Contact"; "Address";
   "Latest Weight"; "Latest Height"; "Latest BMI"; "Latest BP";
   "Latest Heart Rate"; "Latest Temperature"; "Total Vitals Records";
   "Total Prescriptions"].

(** A row of the query of [api_export_complete]. *)
Record complete_row := CompleteRow {
  cr_patient : patient;
  cr_latest : option vital;      (* the LEFT JOIN partner *)
  cr_total_vitals : Z;
  cr_total_prescriptions : Z }.

(** The order of [ORDER BY recorded_at DESC]. *)
Definition by_recorded_at_desc (a b : vital) : Prop :=
  String.leb (v_recorded_at b) (v_recorded_at a) = true.

#[global] Instance by_recorded_at_desc_dec a b : Decision (by_recorded_at_desc a b).
Proof. unfold by_recorded_at_desc. apply _. Defined.

(** The order of [ORDER BY p.full_name]. *)
Definition by_full_name (a b : complete_row) : Prop :=
  String.leb (p_full_name (cr_patient a)) (p_full_name (cr_patient b)) = true.

#[global] Instance by_full_name_dec a b : Decision (by_full_name a b).
Proof. unfold by_full_name. apply _. Defined.


(** [SELECT id FROM vitals WHERE usn = p.usn ORDER BY recorded_at DESC LIMIT 1] *)
Definition latest_vital_id (usn : string) (d : db) : option Z :=
  v_id <$> head (merge_sort by_recorded_at_desc
                   (filter (λ v, v_usn v = usn) (rows (vitals d)))).

Definition complete_rows_of (d : db) (p : patient) : list complete_row :=
  let total_vitals :=
    Z.of_nat (length (filter (λ v, v_usn v = p_usn p) (rows (vitals d)))) in
  let total_prescriptions :=
    Z.of_nat (length (filter (λ r, rx_usn r = p_usn p) (rows (prescriptions d)))) in
  match filter (λ v, p_usn p = v_usn v ∧ Some (v_id v) = latest_vital_id (p_usn p) d)
               (rows (vitals d)) with
  | [] => [CompleteRow p None total_vitals total_prescriptions]
  | vs => (λ v, CompleteRow p (Some v) total_vitals total_prescriptions) <$> vs
  end.

(** The rows fetched by [api_export_complete], [ORDER BY p.full_name]. *)
Definition patients_data (d : db) : list complete_row :=
  merge_sort by_full_name (concat (complete_rows_of d <$> patients d)).

Section Csv.

(** [str(x)] for a float [x]; the digits Python prints are not part of this
    development. *)
Context (float_repr : Q → string).

Definition py_str (x : sqlvalue) : string :=
  match x with
  | SNull => "None"
  | SInt n => pretty n
  | SReal q => float_repr q
  | SText s => s
  end.

(** What [csv.writer] writes for a cell: nothing for [None], [str(x)]
    otherwise. *)
Definition csv_str (x : sqlvalue) : string :=
  match x with SNull => "" | _ => py_str x end.

(** The six vitals cells of a row of [export_csv]:
    [v["blood_pressure"] if v else "", str(v["pulse"]) if v else "", ...],
    evaluated from left to right. *)
Definition vitals_cells (v : option vital) : Py.exn + list string :=
  match v with
  | Some v =>
      let row := vital_columns v in
      Py.bind (getitem row "blood_pressure") (λ bp,
      Py.bind (getitem row "pulse") (λ pulse,
      Py.bind (getitem row "temperature") (λ temperature,
      Py.bind (getitem row "weight") (λ weight,
      Py.bind (getitem row "height") (λ height,
      Py.bind (getitem row "recorded_at") (λ recorded_at,
      inr [csv_str bp; py_str pulse; py_str temperature; py_str weight;
           py_str height; csv_str recorded_at]))))))
  | None => inr [""; ""; ""; ""; ""; ""]
  end.

Definition patient_cells (p : patient) : list string :=
  [p_usn p; p_full_name p; pretty (p_age p); p_gender p; p_contact p;
   p_address p].

(** The rows [export_csv] appends for the patient [p]. *)
Definition export_rows_of (vm : gmap string vital) (rx : list prescription)
    (p : patient) : Py.exn + list (list string) :=
  let v := vm !! p_usn p in
  let related := filter (λ r, rx_usn r = p_usn p) rx in
  if related is [] then
    Py.bind (vitals_cells v) (λ vc, inr [(patient_cells p ++ vc ++ [""; ""])%list])
  else
    Py.mapM (λ r, Py.bind (vitals_cells v) (λ vc,
                    inr (patient_cells p ++ vc
                         ++ [Py.replace (ascii_of_nat 10) " " (rx_notes r);
                             rx_prescribed_at r])%list))
            related.

(** [GET /export.csv]: the header and the rows handed to [csv.writer]. *)
Definition export_csv (d : db) : Py.exn + list (list string) :=
  Py.bind (Py.mapM (export_rows_of (vitals_map d) (rows (prescriptions d)))
                   (patients d))
          (λ rows, inr (export_header :: concat rows)).

Definition complete_cells (r : complete_row) : list string :=
  let p := cr_patient r in
  let v := cr_latest r in
  csv_str <$>
    [SText (p_usn p); SText (p_full_name p); SInt (p_age p);
     SText (p_gender p); SText (p_contact p); SText (p_address p);
     nullable (λ v, SReal (v_weight v)) v;
     nullable (λ v, SReal (v_height v)) v;
     nullable (λ v, nullable SReal (v_bmi v)) v;
     nullable (λ v, SText (pretty (v_bp_systolic v) +:+ "/"
                           +:+ pretty (v_bp_diastolic v))) v;
     nullable (λ v, SInt (v_heart_rate v)) v;
     nullable (λ v, SReal (v_temperature v)) v;
     SInt (cr_total_vitals r); SInt (cr_total_prescriptions r)].

(** [GET /api/export/complete]: the header and the rows written. *)
Definition api_export_complete (d : db) : list (list string) :=
  complete_header :: (complete_cells <$> patients_data d).

End Csv.

(** ** Properties stated by the theorems *)

(** No row of the seven tables that reference [patients(usn)] mentions [usn]. *)
Definition no_dependents (usn : string) (d : db) : Prop :=
  Forall (λ v, v_usn v ≠ usn) (rows (vitals d))
  ∧ Forall (λ r, rx_usn r ≠ usn) (rows (prescriptions d))
  ∧ Forall (λ e, en_usn e ≠ usn) (rows (encounters d))
  ∧ Forall (λ b, pb_usn b ≠ usn) (rows (problems d))
  ∧ Forall (λ a, al_usn a ≠ usn) (rows (allergies d))
  ∧ Forall (λ o, lo_usn o ≠ usn) (rows (lab_orders d))
  ∧ Forall (λ a, ap_usn a ≠ usn) (rows (appointments d)).

(** The patients' table has a row for [usn]. *)
Definition known (d : db) (usn : string) : Prop := is_Some (select_patient usn d).

(** Every row of those tables names a patient of the database: the foreign
    keys on [patients(usn)]. *)
Definition patient_refs_ok (d : db) : Prop :=
  Forall (λ v, known d (v_usn v)) (rows (vitals d))
  ∧ Forall (λ r, known d (rx_usn r)) (rows (prescriptions d))
  ∧ Forall (λ e, known d (en_usn e)) (rows (encounters d))
  ∧ Forall (λ b, known d (pb_usn b)) (rows (problems d))
  ∧ Forall (λ a, known d (al_usn a)) (rows (allergies d))
  ∧ Forall (λ o, known d (lo_usn o)) (rows (lab_orders d))
  ∧ Forall (λ a, known d (ap_usn a)) (rows (appointments d)).

(** The rows of [l'] name patients that rows of [l] name, or known ones. *)
Definition refs_from {A} (usn : A → string) (d' : db) (l l' : list A) : Prop :=
  ∀ x, x ∈ l' → (∃ x0, x0 ∈ l ∧ usn x0 = usn x) ∨ known d' (usn x).



(** Every item of the order [o] is completed. *)
Definition all_completed (items : list lab_order_item) (o : lab_order) : Prop :=
  Forall (λ i, loi_lab_order_id i = lo_id o → loi_status i = "Completed") items.

(** Every lab order of [d'] is a new one or comes from an order of [d] with
    the same id and, if that one was completed, is completed too. *)
Definition orders_descend (d d' : db) : Prop :=
  ∀ o', o' ∈ rows (lab_orders d') →
    (∃ o, o ∈ rows (lab_orders d) ∧ lo_id o = lo_id o'
          ∧ (lo_status o = "Completed" → lo_status o' = "Completed"))
    ∨ Forall (λ o, lo_id o ≠ lo_id o') (rows (lab_orders d)).

(** The PRIMARY KEY of [lab_orders]. *)
Definition orders_keyed (d : db) : Prop := NoDup (lo_id <$> rows (lab_orders d)).

#[global] Instance all_completed_dec items o : Decision (all_completed items o).
Proof. unfold all_completed. apply _. Defined.

(** The databases used in the examples: the catalogue [init_db] is meant
    to seed, then one patient. *)
Definition catalogue : db :=
  set_lab_tests
    (Table [LabTest 1 "CBC" "Complete Blood Count" (Some "Blood") None None 1;
            LabTest 2 "GLU" "Blood Glucose (Fasting)" (Some "Blood")
                    (Some "mg/dL") (Some "70-100") 1;
            LabTest 3 "LFT" "Liver Function Test" (Some "Blood") None None 1] 3)
    empty_db.

Definition patient_form (usn full_name age : string) : gmap string string :=
  {[ "usn" := usn; "full_name" := full_name; "age" := age; "gender" := "F";
     "contact" := "555-0100"; "address" := "1 Main Street" ]}.

Definition ward : db := (patient_create (patient_form "P1" "Ann" "30") catalogue).2.

(** One order of two tests for that patient, the first one completed; the
    handlers create orders of one item only. *)
Definition two_tests : db :=
  set_lab_order_items
    (Table [LabOrderItem 1 1 1 "Completed" (Some "13.5") None
                         (Some "2024-03-01T09:00:00");
            LabOrderItem 2 1 2 "Ordered" None None None] 2)
    (set_lab_orders
       (Table [LabOrder 1 "P1" None "2024-03-01T08:00:00" "Ordered" None] 1)
       ward).

(** The ward with a prescription for its patient. *)
Definition pharmacy : db :=
  (prescription_create {[ "usn" := "P1"; "notes" := "Rest" ]}
                       "2024-04-01T09:00:00" ward).2.

Definition item_form (name dose : string) : gmap string string :=
  {[ "prescription_id" := "1"; "med_name" := name; "dose" := dose ]}.

(** A [float] for the examples: whole numbers only. *)
Definition whole (s : string) : option Q := inject_Z <$> Py.int s.

Definition vitals_form (usn weight height : string) : gmap string string :=
  {[ "usn" := usn; "weight" := weight; "height" := height;
     "blood_pressure_systolic" := "120"; "blood_pressure_diastolic" := "80";
     "heart_rate" := "64"; "temperature" := "37" ]}.

(** The requests that fill the ward of the examples: two patients, a lab
    order, vitals and an appointment for the first of them. *)
Definition busy_requests : list (string * request) :=
  [("2024-03-01T07:00:00", PatientCreate (patient_form "P1" "Ann" "30"));
   ("2024-03-01T07:05:00", PatientCreate (patient_form "P2" "Bob" "41"));
   ("2024-03-01T08:00:00",
    ApiCreateLabOrder {[ "usn" := "P1"; "test_code" := "CBC" ]});
   ("2024-03-01T08:10:00", VitalsCreate (vitals_form "P1" "70" "175"));
   ("2024-03-01T08:20:00",
    ApiAppointmentsCreate {[ "usn" := "P1"; "starts_at" := "2024-03-08T09:00";
                            "ends_at" := "2024-03-08T09:30" ]})].

Definition run (float : string → option Q) (rs : list (string * request))
    (d : db) : db :=
  foldl (λ d r, (handle float r.1 r.2 d).2) d rs.

Definition busy_ward : db := run whole busy_requests catalogue.

(** ** Handlers that read *)

(** The order of [ORDER BY starts_at DESC]. *)
Definition by_starts_at_desc (a b : appointment) : Prop :=
  String.leb (ap_starts_at b) (ap_starts_at a) = true.

#[global] Instance by_starts_at_desc_dec a b : Decision (by_starts_at_desc a b).
Proof. unfold by_starts_at_desc. apply _. Defined.

(** [GET /api/appointments]; [args] are the query parameters. *)
Definition api_appointments_list (args : gmap string string) (d : db)
    : list appointment :=
  let usn := Py.field args "usn" in
  if Py.truthy usn then
    merge_sort by_starts_at_desc
      (filter (λ a, ap_usn a = usn) (rows (appointments d)))
  else take 200 (merge_sort by_starts_at_desc (rows (appointments d))).

(** The order of [ORDER BY name] and [ORDER BY full_name]. *)
Definition by_test_name (a b : lab_test) : Prop :=
  String.leb (lt_name a) (lt_name b) = true.

#[global] Instance by_test_name_dec a b : Decision (by_test_name a b).
Proof. unfold by_test_name. apply _. Defined.

Definition by_patient_name (a b : patient) : Prop :=
  String.leb (p_full_name a) (p_full_name b) = true.

#[global] Instance by_patient_name_dec a b : Decision (by_patient_name a b).
Proof. unfold by_patient_name. apply _. Defined.

(** [GET /api/lab-tests] *)
Definition api_lab_tests (d : db) : list lab_test :=
  merge_sort by_test_name (filter (λ t, lt_is_active t = 1) (rows (lab_tests d))).

(** [GET /api/patients] *)
Definition api_patients_get (d : db) : list patient :=
  merge_sort by_patient_name (patients d).

(** [SELECT COUNT(1) FROM lab_order_items WHERE status <> 'Completed'] *)
Definition labs_pending (d : db) : Z :=
  Z.of_nat (length (filter (λ i, loi_status i ≠ "Completed")
                           (rows (lab_order_items d)))).

(** [substr(x, 1, 10)] on a text of ASCII characters. *)
Definition substr_1_10 (x : string) : string := String.substring 0 10 x.

(** [GET /api/metrics]; [today] is [date.today().isoformat()]. *)
Definition api_metrics (today : string) (d : db) : response :=
  Json [("patients", JInt (Z.of_nat (length (patients d))));
        ("appointments_today",
         JInt (Z.of_nat (length (filter (λ a, substr_1_10 (ap_starts_at a) = today)
                                        (rows (appointments d))))));
        ("labs_pending", JInt (labs_pending d));
        ("vitals_today",
         JInt (Z.of_nat (length (filter (λ v, substr_1_10 (v_recorded_at v) = today)
                                        (rows (vitals d))))))]
       200.

(** The order of [ORDER BY pi.id]. *)
Definition by_item_id (a b : prescription_item * string) : Prop :=
  pi_id a.1 ≤ pi_id b.1.

#[global] Instance by_item_id_dec a b : Decision (by_item_id a b).
Proof. unfold by_item_id. apply _. Defined.

(** The items query of [prescription_print]:
    [SELECT pi.*, m.name AS medication_name FROM prescription_items pi
     JOIN medications m ON m.id = pi.medication_id
     WHERE pi.prescription_id = ? ORDER BY pi.id] *)
Definition print_items (pid : Z) (d : db) : list (prescription_item * string) :=
  merge_sort by_item_id
    (concat ((λ i, (λ m, (i, m_name m))
                     <$> filter (λ m, m_id m = pi_medication_id i)
                                (rows (medications d)))
               <$> filter (λ i, pi_prescription_id i = pid)
                          (rows (prescription_items d)))).

(** What [prescription_print] hands to its template, or its 404. *)
Inductive print_page :=
  | NotFound
  | PrintRx (rx : prescription) (patient : option patient)
            (items : list (prescription_item * string)).

(** [GET /prescription/print/<int:pid>] *)
Definition prescription_print (pid : Z) (d : db) : Py.exn + print_page :=
  if negb (in_int64 pid) then inl Py.OverflowError
  else
    match fetchone (λ r, rx_id r = pid) (rows (prescriptions d)) with
    | None => inr NotFound
    | Some rx =>
        inr (PrintRx rx (select_patient (rx_usn rx) d) (print_items pid d))
    end.

(** The order of [ORDER BY v.recorded_at DESC] on joined rows. *)
Definition by_joined_recorded_at_desc (a b : vital * patient) : Prop :=
  String.leb (v_recorded_at b.1) (v_recorded_at a.1) = true.

#[global] Instance by_joined_recorded_at_desc_dec a b :
  Decision (by_joined_recorded_at_desc a b).
Proof. unfold by_joined_recorded_at_desc. apply _. Defined.


Section CsvVitals.

Context (float_repr : Q → string).


End CsvVitals.

(** The order of [ORDER BY lo.ordered_at DESC] on joined rows. *)
Definition by_ordered_at_desc (a b : lab_order * lab_order_item * lab_test)
    : Prop :=
  String.leb (lo_ordered_at b.1.1) (lo_ordered_at a.1.1) = true.

#[global] Instance by_ordered_at_desc_dec a b : Decision (by_ordered_at_desc a b).
Proof. unfold by_ordered_at_desc. apply _. Defined.

(** The query of [api_list_lab_orders] over the orders that pass [keep]:
    [SELECT lo.*, loi.id AS item_id, lt.code, lt.name, loi.status,
     loi.result_value, loi.result_at FROM lab_orders lo
     JOIN lab_order_items loi ON loi.lab_order_id = lo.id
     JOIN lab_tests lt ON lt.id = loi.lab_test_id
     ORDER BY lo.ordered_at DESC] *)
Definition lab_orders_joined (keep : lab_order → Prop)
    `{∀ o, Decision (keep o)} (d : db)
    : list (lab_order * lab_order_item * lab_test) :=
  merge_sort by_ordered_at_desc
    (concat ((λ o,
                concat ((λ i, (λ t, (o, i, t))
                                <$> filter (λ t, lt_id t = loi_lab_test_id i)
                                           (rows (lab_tests d)))
                          <$> filter (λ i, loi_lab_order_id i = lo_id o)
                                     (rows (lab_order_items d))))
               <$> filter keep (rows (lab_orders d)))).

(** [GET /api/lab-orders]: the rows fetched, before each is turned into a
    JSON object; [args] are the query parameters. *)
Definition api_list_lab_orders (args : gmap string string) (d : db)
    : list (lab_order * lab_order_item * lab_test) :=
  let usn := Py.field args "usn" in
  if Py.truthy usn then lab_orders_joined (λ o, lo_usn o = usn) d
  else take 200 (lab_orders_joined (λ _, True) d).

(** ** More properties stated by the theorems *)

(** The answers that report a failure: a redirect that carries an error
    message, a JSON answer with a status from 400 on, an exception. *)
Definition refused (r : response) : Prop :=
  match r with
  | Redirect args => from_option (λ a, a.1 = "e") False (head args)
  | Json _ status => 400 ≤ status
  | Raised _ => True
  end.

(** The PRIMARY KEY of a table with rowids. *)
Definition keyed `{Rowid R} (t : table R) : Prop := NoDup (rowid <$> rows t).

(** The primary keys of the schema. *)
Definition keys_ok (d : db) : Prop :=
  NoDup (p_usn <$> patients d)
  ∧ keyed (vitals d) ∧ keyed (prescriptions d) ∧ keyed (encounters d)
  ∧ keyed (problems d) ∧ keyed (allergies d) ∧ keyed (medications d)
  ∧ keyed (prescription_items d) ∧ keyed (lab_tests d) ∧ keyed (lab_orders d)
  ∧ keyed (lab_order_items d) ∧ keyed (appointments d).

(** The foreign keys of the item tables: an item names an existing order
    and test, a prescription item an existing prescription and medication. *)
Definition item_refs_ok (d : db) : Prop :=
  Forall (λ i, is_Some (fetchone (λ o, lo_id o = loi_lab_order_id i)
                                 (rows (lab_orders d)))
               ∧ is_Some (fetchone (λ t, lt_id t = loi_lab_test_id i)
                                   (rows (lab_tests d))))
         (rows (lab_order_items d))
  ∧ Forall (λ i, is_Some (fetchone (λ r, rx_id r = pi_prescription_id i)
                                   (rows (prescriptions d)))
                 ∧ is_Some (fetchone (λ m, m_id m = pi_medication_id i)
                                     (rows (medications d))))
           (rows (prescription_items d)).

(** The text columns every route insists on. *)
Definition patient_named (p : patient) : Prop :=
  p_usn p ≠ "" ∧ p_full_name p ≠ "" ∧ p_gender p ≠ "".

(** The merge of [api_appointments_update]: a given field replaces the
    stored one, a missing or blank one keeps it. *)
Definition merge_appointment (data : gmap string string) (a : appointment)
    : appointment :=
  let given k := Py.or_None (Py.field data k) in
  Appointment (ap_id a) (ap_usn a)
    (coalesce (given "starts_at") (ap_starts_at a))
    (coalesce (given "ends_at") (ap_ends_at a))
    (coalesce (given "status") (ap_status a))
    (if given "title" is Some _ then given "title" else ap_title a)
    (if given "clinician" is Some _ then given "clinician" else ap_clinician a)
    (if given "notes" is Some _ then given "notes" else ap_notes a).

(** * The Python built-ins on examples *)

Example strip_inner_space : Py.strip "  P 1 " = "P 1".
Proof. reflexivity. Qed.

Example int_signed : Py.int "-5" = Some (-5) ∧ Py.int "+5" = Some 5.
Proof. split; reflexivity. Qed.

Example int_underscore : Py.int " 1_000 " = Some 1000.
Proof. reflexivity. Qed.

Example int_refused :
  Py.int "12a" = None ∧ Py.int "" = None ∧ Py.int "1__0" = None
  ∧ Py.int "- 5" = None ∧ Py.int "3.5" = None.
Proof. repeat split; reflexivity. Qed.

Example field_missing_or_blank :
  Py.field ∅ "usn" = "" ∧ Py.field {[ "usn" := "   " ]} "usn" = ""
  ∧ Py.field_or {[ "weight" := "" ]} "weight" "0" = "0".
Proof. repeat split; reflexivity. Qed.

(** * Facts about tables *)

Section TableFacts.

Context {R : Type}.
Implicit Types (P : R → Prop) (t : table R) (l : list R).

Lemma table_eta t : Table (rows t) (seq t) = t.
Proof. by destruct t. Qed.

Lemma update_none P `{∀ r, Decision (P r)} (f : R → R) t :
  Forall (λ r, ¬ P r) (rows t) → update P f t = t.
Proof.
  destruct t as [l s]. unfold update. simpl. intros Hno. f_equal.
  induction Hno as [|r l Hr _ IH]; [done|].
  rewrite fmap_cons, decide_False by done. by rewrite IH.
Qed.

Lemma delete_none P `{∀ r, Decision (P r)} t :
  Forall (λ r, ¬ P r) (rows t) → delete P t = t.
Proof.
  destruct t as [l s]. unfold delete. simpl. intros Hno. f_equal.
  induction Hno as [|r l Hr _ IH]; [done|].
  rewrite filter_cons_True by done. by rewrite IH.
Qed.

Lemma fetchone_None P `{∀ r, Decision (P r)} l :
  fetchone P l = None ↔ Forall (λ r, ¬ P r) l.
Proof.
  unfold fetchone. rewrite head_None. split.
  - intros Hnil. apply Forall_forall. intros r Hr HP.
    assert (r ∈ filter P l) as Hin by (apply list_elem_of_filter; done).
    rewrite Hnil in Hin. by apply not_elem_of_nil in Hin.
  - intros Hno. induction Hno as [|r l' Hr _ IH]; [done|].
    by rewrite filter_cons_False.
Qed.

Lemma fetchone_Some P `{∀ r, Decision (P r)} l r :
  fetchone P l = Some r → r ∈ l ∧ P r.
Proof.
  unfold fetchone. intros Hhd. apply head_Some_elem_of in Hhd.
  apply list_elem_of_filter in Hhd. tauto.
Qed.

Lemma fetchone_elem P `{∀ r, Decision (P r)} l r :
  r ∈ l → P r → is_Some (fetchone P l).
Proof.
  intros Hin HP. destruct (fetchone P l) eqn:E; [by eexists|].
  apply fetchone_None in E. rewrite Forall_forall in E. by destruct (E r Hin).
Qed.

(** A row found before rows are appended is still the one found. *)
Lemma fetchone_app P `{∀ r, Decision (P r)} l l' r :
  fetchone P l = Some r → fetchone P (l ++ l') = Some r.
Proof.
  unfold fetchone. rewrite filter_app. destruct (filter P l); [done|].
  by simpl.
Qed.

Lemma fetchone_app_None P `{∀ r, Decision (P r)} l l' :
  fetchone P l = None → fetchone P (l ++ l') = fetchone P l'.
Proof.
  unfold fetchone. rewrite filter_app, head_None. by intros ->.
Qed.

(** An update that does not touch the columns [P] looks at fetches the image
    of the row fetched before. *)
Lemma fetchone_fmap P `{∀ r, Decision (P r)} (g : R → R) l :
  (∀ r, P (g r) ↔ P r) → fetchone P (g <$> l) = g <$> fetchone P l.
Proof.
  intros Hg. unfold fetchone. induction l as [|r l IH]; [done|].
  rewrite fmap_cons. destruct (decide (P r)) as [HP|HP].
  - rewrite !filter_cons_True by (by rewrite ?Hg). done.
  - rewrite !filter_cons_False by (by rewrite ?Hg). done.
Qed.

End TableFacts.

Section RowidFacts.

Context `{Rowid R}.

Lemma max_rowid_ge (l : list R) r : r ∈ l → rowid r ≤ max_rowid l.
Proof.
  induction l as [|r' l IH]; [by intros ?%not_elem_of_nil|].
  intros [->|Hin]%elem_of_cons; unfold max_rowid in *; simpl; [lia|].
  specialize (IH Hin). lia.
Qed.

(** The rowid AUTOINCREMENT picks is held by no row of the table. *)
Lemma next_rowid_fresh (t : table R) r : r ∈ rows t → rowid r < next_rowid t.
Proof. intros Hin%max_rowid_ge. unfold next_rowid. lia. Qed.

End RowidFacts.

Lemma db_eta d :
  Db (patients d) (vitals d) (prescriptions d) (encounters d) (problems d)
     (allergies d) (medications d) (prescription_items d) (lab_tests d)
     (lab_orders d) (lab_order_items d) (appointments d) = d.
Proof. by destruct d. Qed.

(** * Lab results *)

Lemma open_item_iff items o : has_open_item items o ↔ ¬ all_completed items o.
Proof.
  unfold has_open_item, all_completed. rewrite Exists_exists, Forall_forall.
  split.
  - intros (i & Hin & Ho & Hs) Hall. by destruct (Hall i Hin).
  - intros Hnot.
    destruct (decide (Exists (λ i, loi_lab_order_id i = lo_id o
                                   ∧ loi_status i ≠ "Completed") items))
      as [Hex|Hex]; [by apply Exists_exists in Hex|].
    destruct Hnot. intros i Hin Ho.
    destruct (decide (loi_status i = "Completed")) as [|Hs]; [done|].
    destruct Hex. apply Exists_exists. eauto.
Qed.

(** The rows of [lab_order_items] after the first UPDATE. *)
Lemma set_item_result_rows item_id value notes now t :
  rows (set_item_result item_id value notes now t)
  = (λ i, if decide (loi_id i = item_id)
          then LabOrderItem (loi_id i) (loi_lab_order_id i) (loi_lab_test_id i)
                            "Completed" (Some value) notes (Some now)
          else i) <$> rows t.
Proof. done. Qed.

(** The scalar subquery of the second UPDATE finds the order of the item
    the first UPDATE wrote to. *)
Lemma owner_after_update item_id value notes now t :
  loi_lab_order_id
    <$> fetchone (λ i, loi_id i = item_id)
                 (rows (set_item_result item_id value notes now t))
  = loi_lab_order_id <$> fetchone (λ i, loi_id i = item_id) (rows t).
Proof.
  rewrite set_item_result_rows, fetchone_fmap.
  - destruct (fetchone _ (rows t)); [|done]. simpl. by case_decide.
  - intros i. by case_decide.
Qed.

Lemma set_lab_result_response item_id data now d :
  in_int64 item_id = true →
  (api_set_lab_result item_id data now d).1 = Json [("ok", JBool true)] 200.
Proof. intros Hid. unfold api_set_lab_result. by rewrite Hid. Qed.

Lemma set_lab_result_items item_id data now d :
  in_int64 item_id = true →
  lab_order_items (api_set_lab_result item_id data now d).2
  = set_item_result item_id (Py.field data "result_value")
      (Py.or_None (Py.field data "result_notes")) now (lab_order_items d).
Proof. intros Hid. unfold api_set_lab_result. by rewrite Hid. Qed.

Lemma set_lab_result_orders item_id data now d :
  in_int64 item_id = true →
  lab_orders (api_set_lab_result item_id data now d).2
  = refresh_order_status item_id
      (rows (lab_order_items (api_set_lab_result item_id data now d).2))
      (lab_orders d).
Proof. intros Hid. unfold api_set_lab_result. by rewrite Hid. Qed.

(** What the second UPDATE does to each order, in terms of the items as
    they are after the first. *)
Lemma refresh_order_status_rows item_id items t item :
  fetchone (λ i, loi_id i = item_id) items = Some item →
  Forall2 (λ o o',
             if decide (lo_id o = loi_lab_order_id item)
             then o' = LabOrder (lo_id o) (lo_usn o) (lo_encounter_id o)
                         (lo_ordered_at o)
                         (if decide (all_completed items o) then "Completed"
                          else lo_status o)
                         (lo_notes o)
             else o' = o)
          (rows t) (rows (refresh_order_status item_id items t)).
Proof.
  intros Hitem. unfold refresh_order_status. rewrite Hitem. simpl.
  apply Forall2_fmap_r, Forall_Forall2_diag, Forall_forall. intros o _.
  destruct (decide (lo_id o = loi_lab_order_id item)) as [Heq|Hne].
  - simpl. rewrite decide_True by congruence. f_equal.
    destruct (decide (has_open_item items o)) as [Hopen|Hopen];
      destruct (decide (all_completed items o)) as [Hall|Hall]; try done.
    + by apply open_item_iff in Hopen.
    + destruct Hopen. by apply open_item_iff.
  - simpl. rewrite decide_False; [done|]. intros [=]. congruence.
Qed.

(** * What every handler preserves *)

Ltac unfold_handlers :=
  unfold patient_create, patient_update, patient_delete, vitals_create,
    api_patients_post, api_vitals_post, api_prescriptions_post,
    vitals_create_legacy, prescription_create, prescription_item_create,
    api_appointments_create, api_appointments_update, api_appointments_delete,
    api_create_lab_order, api_set_lab_result in *.

Ltac unfold_statements :=
  unfold insert_patient, update_patient, insert_vital, insert_prescription,
    insert_medication, insert_prescription_item, insert_appointment,
    insert_lab_order, insert_lab_order_item in *.

(** Only three handlers write to [lab_orders]. *)
Lemma handle_lab_orders float now r d :
  match r with
  | PatientDelete _ | ApiCreateLabOrder _ | ApiSetLabResult _ _ => True
  | _ => lab_orders (handle float now r d).2 = lab_orders d
  end.
Proof.
  destruct r; simpl; try done; unfold_handlers; unfold_statements;
    repeat case_match; simplify_eq/=; done.
Qed.

Lemma same_key_same_row {A} (key : A → Z) (l : list A) x y :
  NoDup (key <$> l) → x ∈ l → y ∈ l → key x = key y → x = y.
Proof.
  induction l as [|a l IH]; [by intros _ ?%not_elem_of_nil|].
  rewrite fmap_cons, NoDup_cons.
  intros [Hfresh Hnd] [->|Hx]%elem_of_cons [->|Hy]%elem_of_cons Hk; auto.
  - destruct Hfresh. rewrite Hk. by apply list_elem_of_fmap_2.
  - destruct Hfresh. rewrite <- Hk. by apply list_elem_of_fmap_2.
Qed.

Lemma orders_descend_same d d' :
  lab_orders d' = lab_orders d → orders_descend d d'.
Proof. intros Heq o' Ho'. rewrite Heq in Ho'. left. by exists o'. Qed.

Lemma delete_patient_orders usn d o' :
  o' ∈ rows (lab_orders (delete_patient usn d)) →
  ∃ o, o ∈ rows (lab_orders d) ∧ lo_id o = lo_id o' ∧ lo_usn o = lo_usn o'
       ∧ lo_status o = lo_status o' ∧ (select_patient usn d ≠ None → lo_usn o ≠ usn).
Proof.
  unfold delete_patient. destruct (select_patient usn d) eqn:Hp; simpl.
  - intros (o & -> & Ho)%list_elem_of_fmap.
    apply list_elem_of_filter in Ho as [Hne Ho]. exists o.
    by case_decide.
  - intros Ho'. by exists o'.
Qed.

Lemma create_lab_order_orders data now d :
  lab_orders (api_create_lab_order data now d).2 = lab_orders d
  ∨ ∃ notes,
      lab_orders (api_create_lab_order data now d).2
      = (insert (λ i, LabOrder i (Py.field data "usn") None now "Ordered" notes)
                (lab_orders d)).2.
Proof.
  unfold api_create_lab_order, insert_lab_order, insert_lab_order_item, insert.
  repeat case_match; simplify_eq/=; eauto.
Qed.

(** No handler takes an order out of 'Completed'. *)
Lemma handle_orders_descend float now r d : orders_descend d (handle float now r d).2.
Proof.
  pose proof (handle_lab_orders float now r d) as Hframe.
  destruct r; try (by apply orders_descend_same).
  - (* patient_delete *)
    intros o' Ho'. simpl in Ho'.
    apply delete_patient_orders in Ho' as (o & Ho & Hid & _ & Hst & _).
    left. exists o. repeat split; [done..|congruence].
  - (* api_create_lab_order *)
    simpl. destruct (create_lab_order_orders data now d) as [Heq|[notes Heq]];
      [by apply orders_descend_same|].
    intros o'. rewrite Heq. simpl. intros [Ho'|Ho']%elem_of_app.
    + left. by exists o'.
    + apply list_elem_of_singleton in Ho' as ->. right. simpl.
      apply Forall_forall. intros o Ho%next_rowid_fresh.
      change (rowid o) with (lo_id o) in Ho. lia.
  - (* api_set_lab_result *)
    simpl. unfold api_set_lab_result. case_match; [by apply orders_descend_same|].
    intros o'. simpl. unfold refresh_order_status.
    intros (o & -> & Ho)%list_elem_of_fmap. left. exists o.
    split; [done|]. case_decide; simpl; [|done].
    split; [done|]. intros ->. by case_decide.
Qed.

Lemma handle_orders_keyed float now r d :
  orders_keyed d → orders_keyed (handle float now r d).2.
Proof.
  unfold orders_keyed. intros Hnd.
  pose proof (handle_lab_orders float now r d) as Hframe.
  destruct r; try (by rewrite Hframe).
  - (* patient_delete *)
    simpl. unfold delete_patient. case_match; [|done]. simpl.
    rewrite <- list_fmap_compose.
    erewrite list_fmap_ext with (g := lo_id);
      [|intros ? o ?; simpl; by case_decide].
    apply (sublist_NoDup _ (lo_id <$> rows (lab_orders d))); [done|].
    apply fmap_sublist, sublist_filter.
  - (* api_create_lab_order *)
    simpl. destruct (create_lab_order_orders data now d) as [Heq|[notes Heq]];
      rewrite Heq; [done|].
    simpl. rewrite fmap_app. apply NoDup_app. split; [done|]. simpl. split.
    + intros i (o & -> & Ho%next_rowid_fresh)%list_elem_of_fmap.
      intros Hnew%list_elem_of_singleton.
      change (rowid o) with (lo_id o) in Ho. lia.
    + apply NoDup_singleton.
  - (* api_set_lab_result *)
    simpl. unfold api_set_lab_result. case_match; [done|]. simpl.
    unfold refresh_order_status. simpl. rewrite <- list_fmap_compose.
    erewrite list_fmap_ext with (g := lo_id); [done|].
    intros ? o ?. simpl. by case_decide.
Qed.

Lemma reachable_orders_keyed float d : reachable float d → orders_keyed d.
Proof.
  induction 1 as [d ->|now r d _ IH]; [apply NoDup_nil_2|].
  by apply handle_orders_keyed.
Qed.

(** * C1 and C10: recording a lab result *)

(** The order of two tests: a result for the open item completes the order,
    a second result for the completed item leaves it as it is. *)
Example two_tests_second_result :
  lo_status <$> rows (lab_orders
     (api_set_lab_result 2 {[ "result_value" := "92" ]} "2024-03-01T10:00:00"
                         two_tests).2) = ["Completed"].
Proof. reflexivity. Qed.

Example two_tests_first_result_again :
  lo_status <$> rows (lab_orders
     (api_set_lab_result 1 {[ "result_value" := "13.6" ]} "2024-03-01T10:00:00"
                         two_tests).2) = ["Ordered"].
Proof. reflexivity. Qed.

(** C1. After [api_set_lab_result] on an existing item: the rows with that
    id carry the value, the notes, the time stamp and the status
    'Completed', whatever they held; the order the item belongs to gets the
    status 'Completed' if all its items are now completed and keeps its
    status otherwise; the other orders are untouched. And no handler moves
    an order out of 'Completed': a completed order is, after any request,
    deleted or still completed. *)
Theorem record_lab_result_order_status float item_id data now d item :
  in_int64 item_id = true →
  fetchone (λ i, loi_id i = item_id) (rows (lab_order_items d)) = Some item →
  let value := Py.field data "result_value" in
  let notes := Py.or_None (Py.field data "result_notes") in
  let d' := (api_set_lab_result item_id data now d).2 in
  (api_set_lab_result item_id data now d).1 = Json [("ok", JBool true)] 200
  ∧ rows (lab_order_items d')
    = (λ i, if decide (loi_id i = item_id)
            then LabOrderItem (loi_id i) (loi_lab_order_id i)
                   (loi_lab_test_id i) "Completed" (Some value) notes (Some now)
            else i) <$> rows (lab_order_items d)
  ∧ Forall2 (λ o o',
               if decide (lo_id o = loi_lab_order_id item)
               then o' = LabOrder (lo_id o) (lo_usn o) (lo_encounter_id o)
                           (lo_ordered_at o)
                           (if decide (all_completed (rows (lab_order_items d')) o)
                            then "Completed" else lo_status o)
                           (lo_notes o)
               else o' = o)
            (rows (lab_orders d)) (rows (lab_orders d'))
  ∧ ∀ now' r d0 o o',
      orders_keyed d0 →
      o ∈ rows (lab_orders d0) → lo_status o = "Completed" →
      o' ∈ rows (lab_orders (handle float now' r d0).2) → lo_id o' = lo_id o →
      lo_status o' = "Completed".
Proof.
  intros Hid Hitem value notes d'. split; [by apply set_lab_result_response|].
  split; [subst d'; by rewrite set_lab_result_items|].
  split.
  - subst d'. rewrite set_lab_result_orders by done.
    pose proof (owner_after_update item_id value notes now (lab_order_items d))
      as Howner.
    rewrite Hitem in Howner. apply fmap_Some in Howner as (item' & Hitem' & Heq).
    rewrite set_lab_result_items by done. fold value notes.
    simpl in Heq. rewrite Heq.
    by apply refresh_order_status_rows.
  - intros now' r d0 o o' Hkey Ho Hst Ho' Hsame.
    destruct (handle_orders_descend float now' r d0 o' Ho')
      as [(o0 & Ho0 & Hid0 & Hkeep)|Hnew].
    + apply Hkeep.
      rewrite (same_key_same_row lo_id (rows (lab_orders d0)) o0 o); auto.
      congruence.
    + rewrite Forall_forall in Hnew. by destruct (Hnew o Ho).
Qed.

Lemma record_lab_result_order_status_witness :
  lo_status <$> rows (lab_orders
     (api_set_lab_result 2 {[ "result_value" := "92" ]} "2024-03-01T10:00:00"
                         two_tests).2) = ["Completed"]
  ∧ (api_set_lab_result 2 {[ "result_value" := "92" ]} "2024-03-01T10:00:00"
                        two_tests).1 = Json [("ok", JBool true)] 200.
Proof.
  split; [reflexivity|].
  exact (proj1 (record_lab_result_order_status whole 2
                  {[ "result_value" := "92" ]} "2024-03-01T10:00:00" two_tests
                  (LabOrderItem 2 1 2 "Ordered" None None None)
                  eq_refl eq_refl)).
Defined.



(** * C6: creating a lab order *)

Lemma truthy_true s : Py.truthy s = true ↔ s ≠ "".
Proof. by destruct s. Qed.

Lemma truthy_false s : Py.truthy s = false ↔ s = "".
Proof. by destruct s. Qed.




(** * C9: creating an appointment *)


(** An appointment that ends before it starts is accepted. *)
Example create_appointment_backwards :
  let data : gmap string string :=
    {[ "usn" := "P1"; "starts_at" := "2024-05-02T10:00";
       "ends_at" := "2024-05-01T10:00" ]} in
  String.ltb (Py.field data "ends_at") (Py.field data "starts_at") = true
  ∧ (api_appointments_create data ward).1 = Json [("id", JInt 1)] 201
  ∧ rows (appointments (api_appointments_create data ward).2)
    = [Appointment 1 "P1" "2024-05-02T10:00" "2024-05-01T10:00" "Scheduled"
                   None None None].
Proof. repeat split; reflexivity. Qed.



(** * C4: creating a patient *)


(** The JSON route asks for less: a patient without phone and address is
    created with both empty. *)
Example api_patients_optional_contact :
  api_patients_post
    {[ "usn" := "P2"; "fullName" := "Bob"; "age" := "41"; "gender" := "M" ]}
    ward
  = (Json [("message", JStr "Patient created successfully")] 201,
     set_patients (patients ward ++ [Patient "P2" "Bob" 41 "M" "" ""]) ward).
Proof. reflexivity. Qed.




(** * C5: initialisation *)

(** The name [NULL] is bound nowhere in the module. *)
Lemma NULL_unbound : init_db_scope !! "NULL" = None.
Proof. reflexivity. Qed.

(** With a non-empty catalogue [init_db] succeeds and changes nothing. *)
Lemma init_db_catalogue_present scope d :
  rows (lab_tests d) ≠ [] → init_db_in scope (Tables d) = (None, Tables d).
Proof.
  intros Hne. unfold init_db_in. rewrite bool_decide_eq_false_2; [done|].
  by destruct (rows (lab_tests d)).
Qed.

(** With an empty catalogue the seeding is attempted, and the evaluation of
    its arguments raises; the tables stay as they are. *)
Lemma init_db_catalogue_empty d :
  rows (lab_tests d) = [] →
  init_db (Tables d) = (Some (Py.NameError "NULL"), Tables d).
Proof.
  intros Hnil. unfold init_db, init_db_in. rewrite Hnil.
  by rewrite bool_decide_eq_true_2.
Qed.

(** Were [NULL] bound to [None], the fresh store would get the three tests. *)
Lemma init_db_with_NULL_bound :
  init_db_in (<["NULL" := PNone]> init_db_scope) NoTables = (None, Tables catalogue).
Proof. reflexivity. Qed.

(** On the fresh store every request ends in the exception of [init_db]. *)
Lemma serve_fresh_store float now r :
  serve float now r NoTables = (Raised (Py.NameError "NULL"), Tables empty_db).
Proof. reflexivity. Qed.

(** C5. On a store without tables [init_db] creates the tables, finds the
    catalogue empty, and raises [NameError] while it evaluates the rows to
    seed: the catalogue stays empty. *)
Theorem init_db_fresh_store :
  init_db NoTables = (Some (Py.NameError "NULL"), Tables empty_db)
  ∧ rows (lab_tests empty_db) = [].
Proof. split; reflexivity. Qed.

(** * C8: the medication catalogue *)






(** The name is new once: the second item reuses the row of the first, and
    a name that differs in case is another name. *)
Example aspirin_twice :
  let d1 := (prescription_item_create (item_form "Aspirin" "100 mg") pharmacy).2 in
  let d2 := (prescription_item_create (item_form "Aspirin" "300 mg") d1).2 in
  let d3 := (prescription_item_create (item_form "aspirin" "300 mg") d2).2 in
  m_name <$> rows (medications d1) = ["Aspirin"]
  ∧ medications d2 = medications d1
  ∧ pi_medication_id <$> rows (prescription_items d2) = [1; 1]
  ∧ m_name <$> rows (medications d3) = ["Aspirin"; "aspirin"].
Proof. repeat split; reflexivity. Qed.

(** * The foreign keys on patients are kept *)

Lemma refs_from_same {A} (usn : A → string) d' (l : list A) : refs_from usn d' l l.
Proof. intros x Hx. left. by exists x. Qed.

Lemma refs_from_app {A} (usn : A → string) d' (l : list A) x :
  known d' (usn x) → refs_from usn d' l (l ++ [x]).
Proof.
  intros Hx y [Hy| ->%list_elem_of_singleton]%elem_of_app; [|by right].
  left. by exists y.
Qed.

Lemma refs_from_fmap {A} (usn : A → string) d' (l : list A) (f : A → A) :
  (∀ x, usn (f x) = usn x) → refs_from usn d' l (f <$> l).
Proof. intros Hf y (x & -> & Hx)%list_elem_of_fmap. left. by exists x. Qed.

Lemma refs_from_filter {A} (usn : A → string) d' (l : list A)
    (P : A → Prop) `{∀ x, Decision (P x)} :
  refs_from usn d' l (filter P l).
Proof. intros y [_ Hy]%list_elem_of_filter. left. by exists y. Qed.

Lemma refs_from_Forall {A} (usn : A → string) d d' (l l' : list A) :
  (∀ u, known d u → known d' u) → refs_from usn d' l l' →
  Forall (λ x, known d (usn x)) l → Forall (λ x, known d' (usn x)) l'.
Proof.
  intros Hmono Hfrom Hall. apply Forall_forall. intros x Hx.
  destruct (Hfrom x Hx) as [(x0 & Hx0 & <-)|]; [|done].
  rewrite Forall_forall in Hall. by apply Hmono, Hall.
Qed.

(** The way every writing statement keeps the foreign keys: the patients
    known before are known after, and each referencing table gets rows for
    patients it already names or for known ones. *)
Lemma refs_ok_preserved d d' :
  (∀ u, known d u → known d' u) →
  refs_from v_usn d' (rows (vitals d)) (rows (vitals d')) →
  refs_from rx_usn d' (rows (prescriptions d)) (rows (prescriptions d')) →
  refs_from en_usn d' (rows (encounters d)) (rows (encounters d')) →
  refs_from pb_usn d' (rows (problems d)) (rows (problems d')) →
  refs_from al_usn d' (rows (allergies d)) (rows (allergies d')) →
  refs_from lo_usn d' (rows (lab_orders d)) (rows (lab_orders d')) →
  refs_from ap_usn d' (rows (appointments d)) (rows (appointments d')) →
  patient_refs_ok d → patient_refs_ok d'.
Proof.
  intros Hmono ? ? ? ? ? ? ? (? & ? & ? & ? & ? & ? & ?).
  repeat split; by eapply refs_from_Forall.
Qed.

Lemma known_app d ps usn :
  known d usn → is_Some (fetchone (λ p, p_usn p = usn) (patients d ++ ps)).
Proof. intros [p Hp]. exists p. by apply fetchone_app. Qed.

Lemma known_fmap d (f : patient → patient) usn :
  (∀ p, p_usn (f p) = p_usn p) →
  known d usn → is_Some (fetchone (λ p, p_usn p = usn) (f <$> patients d)).
Proof.
  intros Hf [p Hp]. rewrite fetchone_fmap by (intros; by rewrite Hf).
  unfold select_patient in Hp. by rewrite Hp.
Qed.

Ltac refs_frame :=
  apply refs_ok_preserved; simpl;
  first [ done | apply refs_from_same | idtac ].

Lemma insert_patient_refs r d d' :
  insert_patient r d = inr d' → patient_refs_ok d → patient_refs_ok d'.
Proof.
  unfold insert_patient. repeat case_match; intros [= <-]; try done.
  refs_frame. intros u. apply known_app.
Qed.

Lemma update_patient_refs usn full_name age gender contact address d d' :
  update_patient usn full_name age gender contact address d = inr d' →
  patient_refs_ok d → patient_refs_ok d'.
Proof.
  unfold update_patient. case_match; intros [= <-]; try done.
  refs_frame. intros u. apply known_fmap. intros p. by case_decide.
Qed.

Lemma insert_vital_refs usn w h sys dia hr temp rr o2 notes now d d' :
  insert_vital usn w h sys dia hr temp rr o2 notes now d = inr d' →
  patient_refs_ok d → patient_refs_ok d'.
Proof.
  unfold insert_vital. repeat case_match; intros [= <-]; try done.
  refs_frame. apply refs_from_app. by eexists.
Qed.

Lemma insert_prescription_refs usn notes now d d' :
  insert_prescription usn notes now d = inr d' →
  patient_refs_ok d → patient_refs_ok d'.
Proof.
  unfold insert_prescription. repeat case_match; intros [= <-]; try done.
  refs_frame. apply refs_from_app. by eexists.
Qed.

Lemma insert_medication_refs name d i d' :
  insert_medication name d = (i, d') → patient_refs_ok d → patient_refs_ok d'.
Proof. unfold insert_medication, insert. intros [= <- <-]. by refs_frame. Qed.

Lemma insert_prescription_item_refs rx med dose route freq dur instr d d' :
  insert_prescription_item rx med dose route freq dur instr d = inr d' →
  patient_refs_ok d → patient_refs_ok d'.
Proof.
  unfold insert_prescription_item. repeat case_match; intros [= <-]; done.
Qed.

Lemma insert_appointment_refs usn s e st title clin notes d i d' :
  insert_appointment usn s e st title clin notes d = inr (i, d') →
  patient_refs_ok d → patient_refs_ok d'.
Proof.
  unfold insert_appointment, insert. repeat case_match; intros [= <- <-]; try done.
  refs_frame. apply refs_from_app. by eexists.
Qed.

Lemma insert_lab_order_refs usn now st notes d i d' :
  insert_lab_order usn now st notes d = inr (i, d') →
  patient_refs_ok d → patient_refs_ok d'.
Proof.
  unfold insert_lab_order, insert. repeat case_match; intros [= <- <-]; try done.
  refs_frame. apply refs_from_app. by eexists.
Qed.

Lemma insert_lab_order_item_refs order test d d' :
  insert_lab_order_item order test d = inr d' →
  patient_refs_ok d → patient_refs_ok d'.
Proof.
  unfold insert_lab_order_item. repeat case_match; intros [= <-]; done.
Qed.

Lemma set_appointments_refs d t :
  refs_from ap_usn d (rows (appointments d)) (rows t) →
  patient_refs_ok d → patient_refs_ok (set_appointments t d).
Proof. intros Hfrom. by refs_frame. Qed.

Lemma set_lab_result_refs item_id value notes now d :
  patient_refs_ok d →
  patient_refs_ok
    (set_lab_orders
       (refresh_order_status item_id
          (rows (set_item_result item_id value notes now (lab_order_items d)))
          (lab_orders d))
       (set_lab_order_items
          (set_item_result item_id value notes now (lab_order_items d)) d)).
Proof.
  refs_frame. unfold refresh_order_status. simpl.
  apply refs_from_fmap. intros o. by case_decide.
Qed.

Lemma known_filter d usn u :
  known d u → u ≠ usn →
  is_Some (fetchone (λ p, p_usn p = u) (filter (λ p, ¬ p_usn p = usn) (patients d))).
Proof.
  intros [p [Hin Hp]%fetchone_Some] Hne. apply (fetchone_elem _ _ p); [|done].
  apply list_elem_of_filter. split; [congruence|done].
Qed.

Lemma filter_known {A} (usn_of : A → string) d usn (l : list A) :
  Forall (λ x, known d (usn_of x)) l →
  Forall (λ x, is_Some (fetchone (λ p, p_usn p = usn_of x)
                          (filter (λ p, ¬ p_usn p = usn) (patients d))))
         (filter (λ x, ¬ usn_of x = usn) l).
Proof.
  rewrite !Forall_forall. intros Hall x [Hne Hx]%list_elem_of_filter.
  apply known_filter; auto.
Qed.

Lemma delete_patient_refs usn d :
  patient_refs_ok d → patient_refs_ok (delete_patient usn d).
Proof.
  intros Hok. unfold delete_patient. case_match; [|done].
  destruct Hok as (Hv & Hrx & Hen & Hpb & Hal & Hlo & Hap).
  unfold patient_refs_ok, known, select_patient. simpl.
  repeat split; try (by apply filter_known).
  apply Forall_fmap. apply (filter_known lo_usn d usn) in Hlo.
  eapply Forall_impl; [exact Hlo|]. intros o Ho. simpl. by case_decide.
Qed.

Lemma handle_refs float now r d :
  patient_refs_ok d → patient_refs_ok (handle float now r d).2.
Proof.
  intros Hok. destruct r; simpl; unfold_handlers;
    try (by apply delete_patient_refs);
    try (by repeat case_match; simplify_eq/=;
            eauto using insert_patient_refs, update_patient_refs,
              insert_vital_refs, insert_prescription_refs,
              insert_medication_refs, insert_prescription_item_refs,
              insert_appointment_refs, insert_lab_order_refs,
              insert_lab_order_item_refs).
  - (* api_appointments_update *)
    case_match; [done|]. simpl. apply set_appointments_refs; [|done].
    simpl. apply refs_from_fmap. intros a. by case_decide.
  - (* api_appointments_delete *)
    case_match; [done|]. simpl. apply set_appointments_refs; [|done].
    simpl. apply refs_from_filter.
  - (* api_set_lab_result *)
    case_match; [done|]. by apply set_lab_result_refs.
Qed.

(** In every reachable database the rows that reference a patient name an
    existing one. *)
Lemma reachable_refs float d : reachable float d → patient_refs_ok d.
Proof.
  induction 1 as [d ->|now r d _ IH]; [by repeat split|].
  by apply handle_refs.
Qed.

Lemma reachable_run float rs d : reachable float d → reachable float (run float rs d).
Proof.
  revert d. induction rs as [|[now r] rs IH]; intros d Hd; [done|].
  apply IH. by apply reachable_step.
Qed.

(** * C3: deleting a patient *)




Lemma unknown_no_dependents usn d :
  patient_refs_ok d → select_patient usn d = None → no_dependents usn d.
Proof.
  intros (Hv & Hrx & Hen & Hpb & Hal & Hlo & Hap) Hp.
  assert (∀ u, known d u → u ≠ usn) as Hne.
  { intros u [p Hu] ->. unfold known in *. congruence. }
  repeat split; (eapply Forall_impl; [eassumption|]); intros x Hx; by apply Hne.
Qed.





(** The busy ward before and after: the patient's order, item, vitals and
    appointment are gone, the other patient stays. *)
Example busy_ward_delete :
  let d' := (patient_delete "P1" busy_ward).2 in
  (length (rows (lab_orders busy_ward)), length (rows (lab_order_items busy_ward)),
   length (rows (vitals busy_ward)), length (rows (appointments busy_ward)))
  = (1, 1, 1, 1)%nat
  ∧ (rows (lab_orders d'), rows (lab_order_items d'), rows (vitals d'),
     rows (appointments d')) = ([], [], [], [])
  ∧ p_usn <$> patients d' = ["P2"].
Proof. by vm_compute. Qed.

(** * C2: the body mass index *)


Lemma square_as_power (x : Q) : (x * x == x ^ 2)%Q.
Proof. reflexivity. Qed.




(** * The order of TEXT values *)

Lemma ascii_compare_Lt_trans a b c :
  Ascii.compare a b = Lt → Ascii.compare b c = Lt → Ascii.compare a c = Lt.
Proof.
  unfold Ascii.compare. rewrite !N.compare_lt_iff. apply N.lt_trans.
Qed.

Lemma string_compare_refl s : String.compare s s = Eq.
Proof.
  induction s as [|a s IH]; [done|]. simpl.
  unfold Ascii.compare. by rewrite N.compare_refl.
Qed.

Lemma leb_refl s : String.leb s s = true.
Proof. unfold String.leb. by rewrite string_compare_refl. Qed.

Lemma leb_trans a b c :
  String.leb a b = true → String.leb b c = true → String.leb a c = true.
Proof.
  unfold String.leb. revert b c.
  induction a as [|x a IH]; intros [|y b] [|z c]; simpl; try done.
  destruct (Ascii.compare x y) eqn:Hxy; [| |done].
  - apply Ascii.compare_eq_iff in Hxy as ->.
    destruct (Ascii.compare y z); [apply IH|done|done].
  - destruct (Ascii.compare y z) eqn:Hyz; [| |done].
    + apply Ascii.compare_eq_iff in Hyz as ->. by rewrite Hxy.
    + by rewrite (ascii_compare_Lt_trans x y z).
Qed.

Lemma ltb_false_leb a b : String.ltb a b = false → String.leb b a = true.
Proof.
  unfold String.ltb, String.leb. rewrite (String.compare_antisym a b).
  by destruct (String.compare b a).
Qed.

Lemma ltb_true_leb a b : String.ltb a b = true → String.leb a b = true.
Proof. unfold String.ltb, String.leb. by destruct (String.compare a b). Qed.

#[local] Instance by_recorded_at_desc_trans : Transitive by_recorded_at_desc.
Proof. intros a b c Hab Hbc. unfold by_recorded_at_desc in *. by eapply leb_trans. Qed.

#[local] Instance by_recorded_at_desc_total : Total by_recorded_at_desc.
Proof. intros a b. unfold by_recorded_at_desc. apply or_comm, String.leb_total. Qed.

(** [MAX] is an element of the column and bounds the column. *)
Lemma max_text_is_Some l : l ≠ [] → is_Some (max_text l).
Proof.
  destruct l as [|s l]; [done|]. intros _. simpl.
  destruct (max_text l); [case_match|]; by eexists.
Qed.

Lemma max_text_elem l m : max_text l = Some m → m ∈ l.
Proof.
  revert m. induction l as [|s l IH]; intros m; [done|]. simpl.
  destruct (max_text l) as [t|]; [|intros [= ->]; set_solver].
  case_match; intros [= <-]; [set_solver|]. apply elem_of_cons. right. by apply IH.
Qed.

Lemma max_text_ge l m s : max_text l = Some m → s ∈ l → String.leb s m = true.
Proof.
  revert m. induction l as [|x l IH]; intros m; [by intros _ ?%not_elem_of_nil|].
  simpl. destruct (max_text l) as [t|] eqn:Hmax.
  - destruct (String.ltb t x) eqn:Hlt; intros [= <-] [->|Hs]%elem_of_cons.
    + apply leb_refl.
    + apply (leb_trans s t x); [by apply IH|by apply ltb_true_leb].
    + by apply ltb_false_leb.
    + by apply IH.
  - intros [= <-] [->|Hs]%elem_of_cons; [apply leb_refl|].
    destruct (max_text_is_Some l) as [t Ht]; [|congruence].
    intros ->. by apply not_elem_of_nil in Hs.
Qed.

(** * C7: the latest vitals of each patient *)

Lemma foldl_insert_lookup {A} (key : A → string) (l : list A)
    (m : gmap string A) k :
  foldl (λ m v, <[key v := v]> m) m l !! k
  = match last (filter (λ v, key v = k) l) with
    | Some v => Some v
    | None => m !! k
    end.
Proof.
  revert m. induction l as [|x l IH]; intros m; [done|]. simpl. rewrite IH.
  destruct (decide (key x = k)) as [Hk|Hk].
  - rewrite filter_cons_True by done.
    destruct (filter (λ v, key v = k) l) as [|y l'] eqn:Hf; simpl.
    + by rewrite Hk, lookup_insert_eq.
    + destruct (last (y :: l')) eqn:Hlast; [done|].
      by apply last_None in Hlast.
  - rewrite filter_cons_False by done.
    by rewrite lookup_insert_ne.
Qed.

Lemma latest_vitals_spec d v :
  v ∈ latest_vitals d ↔
  v ∈ rows (vitals d)
  ∧ max_text (v_recorded_at <$> filter (λ w, v_usn w = v_usn v) (rows (vitals d)))
    = Some (v_recorded_at v).
Proof. unfold latest_vitals. rewrite list_elem_of_filter. tauto. Qed.

(** The entry of [vitals_map] for a patient is a row of that patient whose
    time stamp no row of the patient exceeds. *)
Lemma vitals_map_latest d usn v :
  vitals_map d !! usn = Some v →
  v ∈ rows (vitals d) ∧ v_usn v = usn
  ∧ ∀ w, w ∈ rows (vitals d) → v_usn w = usn →
         String.leb (v_recorded_at w) (v_recorded_at v) = true.
Proof.
  unfold vitals_map. rewrite foldl_insert_lookup, lookup_empty.
  destruct (last _) as [v'|] eqn:Hlast; [|done]. intros [= ->].
  apply last_Some_elem_of, list_elem_of_filter in Hlast as [Husn Hin].
  apply latest_vitals_spec in Hin as [Hin Hmax].
  split; [done|]. split; [done|]. intros w Hw Hwu.
  apply (max_text_ge _ _ _ Hmax). apply list_elem_of_fmap_2.
  apply list_elem_of_filter. split; [congruence|done].
Qed.

(** A patient has an entry exactly when the patient has a vitals row. *)
Lemma vitals_map_dom d usn :
  is_Some (vitals_map d !! usn) ↔ ∃ w, w ∈ rows (vitals d) ∧ v_usn w = usn.
Proof.
  split.
  - intros [v (Hin & Husn & _)%vitals_map_latest]. by exists v.
  - intros (w & Hw & Hu). unfold vitals_map.
    rewrite foldl_insert_lookup, lookup_empty.
    set (mine := filter (λ x, v_usn x = usn) (rows (vitals d))).
    assert (w ∈ mine) as Hmine by (by apply list_elem_of_filter).
    destruct (max_text_is_Some (v_recorded_at <$> mine)) as [m Hm].
    { intros Hnil%fmap_nil_inv. rewrite Hnil in Hmine.
      by apply not_elem_of_nil in Hmine. }
    pose proof (max_text_elem _ _ Hm) as (v & Hrec & Hv)%list_elem_of_fmap.
    apply list_elem_of_filter in Hv as [Hvu Hv].
    assert (v ∈ filter (λ x, v_usn x = usn) (latest_vitals d)) as Hlatest.
    { apply list_elem_of_filter. split; [done|].
      apply latest_vitals_spec. split; [done|]. rewrite Hvu. fold mine.
      by rewrite Hm, Hrec. }
    destruct (last (filter (λ x, v_usn x = usn) (latest_vitals d))) eqn:Hlast;
      [by eexists|].
    apply last_None in Hlast. rewrite Hlast in Hlatest.
    by apply not_elem_of_nil in Hlatest.
Qed.

(** Three rows for one patient at increasing times: the entry is the third. *)
Example vitals_map_three :
  let d := run whole
             [("2024-03-01T08:10:00", VitalsCreate (vitals_form "P1" "70" "175"));
              ("2024-03-02T08:10:00", VitalsCreate (vitals_form "P1" "71" "175"));
              ("2024-03-03T08:10:00", VitalsCreate (vitals_form "P1" "72" "175"))]
             ward in
  (v_recorded_at <$> vitals_map d !! "P1") = Some "2024-03-03T08:10:00"
  ∧ (v_id <$> vitals_map d !! "P1") = Some 3.
Proof. by vm_compute. Qed.

Lemma elem_of_concat {A} (x : A) (ls : list (list A)) :
  x ∈ concat ls ↔ ∃ l, x ∈ l ∧ l ∈ ls.
Proof.
  rewrite list_elem_of_In, in_concat. split.
  - intros (l & Hl & Hx). exists l. by rewrite !list_elem_of_In.
  - intros (l & Hx & Hl). exists l. by rewrite <- !list_elem_of_In.
Qed.

Section ExportFacts.

Context (float_repr : Q → string).

(** The [vitals] table has no column [blood_pressure]: the first vitals cell
    of a row raises as soon as the patient has an entry in [vitals_map]. *)
Lemma vitals_cells_raises v : vitals_cells float_repr (Some v) = inl no_such_column.
Proof. reflexivity. Qed.

Lemma export_rows_of_raises vm rx p :
  is_Some (vm !! p_usn p) → export_rows_of float_repr vm rx p = inl no_such_column.
Proof.
  intros [v Hv]. unfold export_rows_of. rewrite Hv, vitals_cells_raises.
  by destruct (filter _ rx).
Qed.

Lemma export_rows_of_only_raises vm rx p e :
  export_rows_of float_repr vm rx p = inl e → e = no_such_column.
Proof.
  destruct (vm !! p_usn p) as [v|] eqn:Hv.
  - rewrite export_rows_of_raises by (by eexists). by intros [= <-].
  - unfold export_rows_of. rewrite Hv. simpl.
    destruct (filter _ rx) as [|r l]; [done|].
    generalize (r :: l). intros l'. induction l' as [|r' l' IH]; [done|].
    simpl. destruct (Py.mapM _ l'); simpl; [auto|done].
Qed.

Lemma mapM_raises {A B} (f : A → Py.exn + B) (l : list A) x e :
  (∀ y e', f y = inl e' → e' = e) → x ∈ l → f x = inl e → Py.mapM f l = inl e.
Proof.
  intros Honly Hx Hfx. induction l as [|y l IH]; [by apply not_elem_of_nil in Hx|].
  simpl. destruct (f y) as [e'|b] eqn:Hy; simpl.
  - by rewrite (Honly y e' Hy).
  - apply elem_of_cons in Hx as [->|Hx]; [congruence|]. by rewrite IH.
Qed.

(** [export_csv] raises whenever a patient has a vitals row. *)
Lemma export_csv_raises d p w :
  p ∈ patients d → w ∈ rows (vitals d) → v_usn w = p_usn p →
  export_csv float_repr d = inl no_such_column.
Proof.
  intros Hp Hw Hu. unfold export_csv.
  rewrite (mapM_raises _ _ p no_such_column); [done| |done|].
  - intros y e'. apply export_rows_of_only_raises.
  - apply export_rows_of_raises, vitals_map_dom. by exists w.
Qed.

(** Without any vitals the export has a row for each patient, its vitals
    cells empty. *)
Example export_csv_no_vitals :
  export_csv float_repr ward
  = inr [export_header;
         ["P1"; "Ann"; "30"; "F"; "555-0100"; "1 Main Street";
          ""; ""; ""; ""; ""; ""; ""; ""]].
Proof. reflexivity. Qed.

(** The sibling export, [api_export_complete], has a row with empty vitals
    cells for every patient without vitals. *)
Lemma export_complete_without_vitals d p :
  p ∈ patients d → Forall (λ v, v_usn v ≠ p_usn p) (rows (vitals d)) →
  ∃ n, [p_usn p; p_full_name p; pretty (p_age p); p_gender p; p_contact p;
        p_address p; ""; ""; ""; ""; ""; ""; "0"; n]
       ∈ api_export_complete float_repr d.
Proof.
  intros Hp Hnone. eexists. unfold api_export_complete. apply elem_of_cons. right.
  apply list_elem_of_fmap.
  exists (CompleteRow p None 0
            (Z.of_nat (length (filter (λ r, rx_usn r = p_usn p)
                                      (rows (prescriptions d)))))).
  split; [reflexivity|]. unfold patients_data. rewrite merge_sort_Permutation.
  apply elem_of_concat. exists (complete_rows_of d p).
  split; [|by apply list_elem_of_fmap_2].
  unfold complete_rows_of.
  assert (filter (λ v, v_usn v = p_usn p) (rows (vitals d)) = []) as ->.
  { induction Hnone as [|v l Hv _ IH]; [done|]. by rewrite filter_cons_False. }
  assert (filter (λ v, p_usn p = v_usn v
                       ∧ Some (v_id v) = latest_vital_id (p_usn p) d)
                 (rows (vitals d)) = []) as ->.
  { induction Hnone as [|v l Hv _ IH]; [done|].
    rewrite filter_cons_False by (intros [? _]; congruence). done. }
  set_solver.
Qed.

(** In [api_export_complete] the vitals joined to a patient are a row of the
    patient with the greatest time stamp. *)
Lemma export_complete_latest d r v :
  NoDup (v_id <$> rows (vitals d)) →
  r ∈ patients_data d → cr_latest r = Some v →
  v ∈ rows (vitals d) ∧ v_usn v = p_usn (cr_patient r)
  ∧ ∀ w, w ∈ rows (vitals d) → v_usn w = v_usn v →
         String.leb (v_recorded_at w) (v_recorded_at v) = true.
Proof.
  intros Hkey Hr Hv. unfold patients_data in Hr.
  rewrite merge_sort_Permutation in Hr.
  apply elem_of_concat in Hr as (rs & Hr & (p & -> & Hp)%list_elem_of_fmap).
  unfold complete_rows_of in Hr.
  destruct (filter _ (rows (vitals d))) as [|v0 vs] eqn:Hjoin.
  { apply list_elem_of_singleton in Hr as ->. done. }
  apply list_elem_of_fmap in Hr as (v' & -> & Hv'). simpl in Hv.
  injection Hv as ->. simpl. rewrite <- Hjoin in Hv'.
  apply list_elem_of_filter in Hv' as [[Hu Hid] Hin].
  split; [done|]. split; [done|]. intros w Hw Hwu.
  unfold latest_vital_id in Hid.
  set (mine := filter (λ x, v_usn x = p_usn p) (rows (vitals d))) in *.
  pose proof (StronglySorted_merge_sort by_recorded_at_desc mine) as Hsorted.
  pose proof (merge_sort_Permutation by_recorded_at_desc mine) as Hperm.
  destruct (merge_sort by_recorded_at_desc mine) as [|top rest]; [done|].
  simpl in Hid. injection Hid as Hid.
  assert (top ∈ mine) as Htop by (rewrite <- Hperm; set_solver).
  apply list_elem_of_filter in Htop as [_ Htop].
  rewrite (same_key_same_row v_id (rows (vitals d)) v top Hkey Hin Htop Hid).
  assert (w ∈ top :: rest) as [->|Hrest]%elem_of_cons.
  { rewrite Hperm. apply list_elem_of_filter. split; [congruence|done]. }
  - apply leb_refl.
  - apply StronglySorted_inv in Hsorted as [_ Hall].
    rewrite Forall_forall in Hall. by apply Hall.
Qed.

(** C7. In the busy ward the first patient has vitals and the second has
    none: [vitals_map] has an entry for the first only, and [export_csv]
    raises [IndexError] at the first patient's row instead of producing the
    rows of both. *)
Theorem export_csv_busy_ward :
  (v_recorded_at <$> vitals_map busy_ward !! "P1") = Some "2024-03-01T08:10:00"
  ∧ vitals_map busy_ward !! "P2" = None
  ∧ p_usn <$> patients busy_ward = ["P1"; "P2"]
  ∧ export_csv float_repr busy_ward = inl no_such_column.
Proof. by vm_compute. Qed.

End ExportFacts.

(** * Further properties of the handlers *)

(** ** Failure leaves the database alone *)

(** X1. Whenever one of the fifteen writing handlers reports a failure (an
    error redirect, a JSON status from 400 on, or an exception), the
    database is exactly the one it was given. *)
Theorem handlers_atomic_on_error float now r d :
  refused (handle float now r d).1 → (handle float now r d).2 = d.
Proof.
  destruct r; simpl; unfold_handlers;
    repeat case_match; simplify_eq/=; try done;
    intros Hno; try lia; by inversion Hno.
Qed.

Lemma handlers_atomic_on_error_witness :
  (handle whole "2024-03-01T07:10:00"
          (PatientCreate (patient_form "P1" "Ann again" "31")) ward).2 = ward.
Proof.
  apply (handlers_atomic_on_error whole "2024-03-01T07:10:00"
           (PatientCreate (patient_form "P1" "Ann again" "31")) ward).
  by vm_compute.
Defined.


(** ** Updating a patient *)

Lemma patient_update_accepted form d age :
  Forall (λ k, Py.field form k ≠ "") patient_fields →
  Py.int (Py.field form "age") = Some age → in_int64 age = true →
  patient_update form d
  = (Redirect [("m", "Patient updated"); ("q", Py.field form "usn")],
     set_patients
       ((λ p, if decide (p_usn p = Py.field form "usn")
              then Patient (p_usn p) (Py.field form "full_name") age
                     (Py.field form "gender") (Py.field form "contact")
                     (Py.field form "address")
              else p) <$> patients d) d).
Proof.
  intros Hall Hint Hfit. unfold patient_update.
  rewrite Forall_forall in Hall.
  assert (∀ k, k ∈ patient_fields → Py.truthy (Py.field form k) = true) as Hk
    by (intros k Hin; by apply truthy_true, Hall).
  simpl. rewrite !Hk by set_solver. simpl. rewrite Hint.
  unfold update_patient. by rewrite Hfit.
Qed.

(** X3. An update for a usn no patient has is not told apart from a
    successful one: a form that passes the checks gets 'Patient updated'
    and the database is unchanged. *)
Theorem patient_update_unknown_usn form d age :
  Forall (λ k, Py.field form k ≠ "") patient_fields →
  Py.int (Py.field form "age") = Some age → in_int64 age = true →
  select_patient (Py.field form "usn") d = None →
  patient_update form d
  = (Redirect [("m", "Patient updated"); ("q", Py.field form "usn")], d).
Proof.
  intros Hall Hint Hfit Hnone.
  rewrite (patient_update_accepted form d age) by done. f_equal.
  apply fetchone_None in Hnone.
  replace ((λ p, if decide (p_usn p = Py.field form "usn")
                 then Patient (p_usn p) (Py.field form "full_name") age
                        (Py.field form "gender") (Py.field form "contact")
                        (Py.field form "address")
                 else p) <$> patients d) with (patients d); [by destruct d|].
  induction Hnone as [|p l Hp _ IH]; [done|].
  rewrite fmap_cons, decide_False by done. by rewrite <- IH.
Qed.

Lemma patient_update_unknown_usn_witness :
  patient_update (patient_form "P7" "Nobody" "50") ward
  = (Redirect [("m", "Patient updated"); ("q", "P7")], ward).
Proof.
  apply (patient_update_unknown_usn (patient_form "P7" "Nobody" "50") ward 50);
    [|reflexivity|reflexivity|reflexivity].
  by apply (bool_decide_unpack _); vm_compute.
Defined.

(** X4. [patient_update] never adds, removes or renames a patient and
    touches no other table: whatever the form, the usns are the same list as
    before and the rest of the database is unchanged; and when the form is
    accepted, every patient with the usn of the form holds the name, age,
    gender, contact and address of the form afterwards. *)
Theorem patient_update_keeps_usns form d :
  let d' := (patient_update form d).2 in
  p_usn <$> patients d' = p_usn <$> patients d
  ∧ d' = set_patients (patients d') d
  ∧ ((patient_update form d).1
       = Redirect [("m", "Patient updated"); ("q", Py.field form "usn")] →
     ∀ p, p ∈ patients d' → p_usn p = Py.field form "usn" →
       p_full_name p = Py.field form "full_name"
       ∧ Some (p_age p) = Py.int (Py.field form "age")
       ∧ p_gender p = Py.field form "gender"
       ∧ p_contact p = Py.field form "contact"
       ∧ p_address p = Py.field form "address").
Proof.
  unfold patient_update, update_patient.
  repeat case_match; simplify_eq/=;
    (split; [|split; [by destruct d|]]); try done.
  - rewrite <- list_fmap_compose. apply list_fmap_ext.
    intros ? p ?. simpl. by case_decide.
  - intros _ p (p0 & -> & Hp0)%list_elem_of_fmap. case_decide; [done|].
    by intros ?.
Qed.

Lemma patient_update_keeps_usns_witness :
  p_usn <$> patients (patient_update (patient_form "P1" "Ann Lee" "31") ward).2
  = p_usn <$> patients ward.
Proof.
  exact (proj1 (patient_update_keeps_usns (patient_form "P1" "Ann Lee" "31") ward)).
Defined.

(** ** Pending lab work *)

Lemma filter_length_fmap_le {A} (Q : A → Prop) `{∀ x, Decision (Q x)}
    (g : A → A) (l : list A) :
  (∀ x, Q (g x) → Q x) →
  (length (filter Q (g <$> l)) ≤ length (filter Q l))%nat.
Proof.
  intros Hg. induction l as [|x l IH]; [done|]. rewrite fmap_cons.
  destruct (decide (Q (g x))) as [Hq|Hq].
  - rewrite !filter_cons_True by auto. simpl. lia.
  - rewrite (filter_cons_False _ (g x)) by done.
    destruct (decide (Q x)); [rewrite filter_cons_True by done; simpl; lia|].
    by rewrite filter_cons_False.
Qed.

Lemma filter_length_filter_le {A} (Q R : A → Prop) `{∀ x, Decision (Q x)}
    `{∀ x, Decision (R x)} (l : list A) :
  (length (filter Q (filter R l)) ≤ length (filter Q l))%nat.
Proof.
  induction l as [|x l IH]; [done|].
  destruct (decide (R x)), (decide (Q x));
    rewrite ?(filter_cons_True R), ?(filter_cons_False R),
            ?(filter_cons_True Q), ?(filter_cons_False Q) by done;
    simpl; lia.
Qed.

(** Only three handlers write to [lab_order_items]. *)
Lemma handle_lab_order_items float now r d :
  match r with
  | PatientDelete _ | ApiCreateLabOrder _ | ApiSetLabResult _ _ => True
  | _ => lab_order_items (handle float now r d).2 = lab_order_items d
  end.
Proof.
  destruct r; simpl; try done; unfold_handlers; unfold_statements;
    repeat case_match; simplify_eq/=; done.
Qed.

Lemma create_lab_order_items data now d :
  lab_order_items (api_create_lab_order data now d).2 = lab_order_items d
  ∨ ∃ order test,
      rows (lab_order_items (api_create_lab_order data now d).2)
      = rows (lab_order_items d)
        ++ [LabOrderItem (next_rowid (lab_order_items d)) order test "Ordered"
                         None None None].
Proof.
  unfold api_create_lab_order, insert_lab_order, insert_lab_order_item, insert.
  repeat case_match; simplify_eq/=; eauto.
Qed.

(** X5. The count [api_metrics] reports as [labs_pending] grows only by
    [api_create_lab_order], and then by at most one: after any other
    request it is what it was or less. *)
Theorem labs_pending_grows_by_orders float now r d :
  labs_pending (handle float now r d).2 ≤ labs_pending d + 1
  ∧ ((∀ data, r ≠ ApiCreateLabOrder data) →
     labs_pending (handle float now r d).2 ≤ labs_pending d).
Proof.
  pose proof (handle_lab_order_items float now r d) as Hframe.
  unfold labs_pending.
  destruct r; try (rewrite Hframe; split; [lia|intros _; lia]).
  - (* patient_delete *)
    assert (length (filter (λ i, loi_status i ≠ "Completed")
                      (rows (lab_order_items (delete_patient usn d))))
            ≤ length (filter (λ i, loi_status i ≠ "Completed")
                        (rows (lab_order_items d))))%nat as Hle.
    { unfold delete_patient. case_match; [|done]. simpl.
      apply filter_length_filter_le. }
    simpl. split; [lia|intros _; lia].
  - (* api_create_lab_order *)
    split; [|intros Hne; by destruct (Hne data)]. simpl.
    destruct (create_lab_order_items data now d) as [->|(order & test & ->)];
      [lia|].
    rewrite filter_app, length_app. rewrite filter_cons_True by done. simpl. lia.
  - (* api_set_lab_result *)
    assert (length (filter (λ i, loi_status i ≠ "Completed")
                      (rows (lab_order_items (api_set_lab_result item_id data now d).2)))
            ≤ length (filter (λ i, loi_status i ≠ "Completed")
                        (rows (lab_order_items d))))%nat as Hle.
    { unfold api_set_lab_result. case_match; [done|]. simpl.
      apply filter_length_fmap_le. intros i. by case_decide. }
    simpl. split; [lia|intros _; lia].
Qed.

Lemma labs_pending_grows_by_orders_witness :
  labs_pending (handle whole "2024-03-01T10:00:00"
                       (ApiSetLabResult 2 {[ "result_value" := "92" ]})
                       two_tests).2 ≤ labs_pending two_tests.
Proof.
  apply (labs_pending_grows_by_orders whole "2024-03-01T10:00:00"
           (ApiSetLabResult 2 {[ "result_value" := "92" ]}) two_tests).
  by intros data.
Defined.

Example metrics_busy_ward :
  api_metrics "2024-03-08" busy_ward
  = Json [("patients", JInt 2); ("appointments_today", JInt 1);
          ("labs_pending", JInt 1); ("vitals_today", JInt 0)] 200.
Proof. by vm_compute. Qed.

(** ** Appointments *)

#[local] Instance by_starts_at_desc_trans : Transitive by_starts_at_desc.
Proof. intros a b c Hab Hbc. unfold by_starts_at_desc in *. by eapply leb_trans. Qed.

#[local] Instance by_starts_at_desc_total : Total by_starts_at_desc.
Proof. intros a b. unfold by_starts_at_desc. apply or_comm, String.leb_total. Qed.

Lemma appointments_update_rows aid data d :
  in_int64 aid = true →
  api_appointments_update aid data d
  = (Json [("ok", JBool true)] 200,
     set_appointments
       (Table ((λ a, if decide (ap_id a = aid) then merge_appointment data a
                     else a) <$> rows (appointments d))
              (seq (appointments d))) d).
Proof. intros Hfit. unfold api_appointments_update. by rewrite Hfit. Qed.

Lemma merge_appointment_twice data a :
  merge_appointment data (merge_appointment data a) = merge_appointment data a.
Proof.
  unfold merge_appointment, coalesce. simpl.
  by repeat (destruct (Py.or_None _)).
Qed.

Lemma merge_appointment_empty a : merge_appointment ∅ a = a.
Proof. by destruct a. Qed.

(** X6. [api_appointments_update] is a partial update: an empty body
    changes nothing, sending the same body twice is the same as sending it
    once, and no body can change the id or the patient of an appointment. *)
Theorem appointments_update_partial aid data d :
  (api_appointments_update aid ∅ d).2 = d
  ∧ api_appointments_update aid data (api_appointments_update aid data d).2
    = api_appointments_update aid data d
  ∧ (λ a, (ap_id a, ap_usn a))
      <$> rows (appointments (api_appointments_update aid data d).2)
    = (λ a, (ap_id a, ap_usn a)) <$> rows (appointments d).
Proof.
  destruct (in_int64 aid) eqn:Hfit;
    [|unfold api_appointments_update; by rewrite Hfit].
  rewrite !appointments_update_rows by done. simpl. repeat split.
  - rewrite (list_fmap_ext _ id (rows (appointments d))).
    + rewrite list_fmap_id. by destruct d as [? ? ? ? ? ? ? ? ? ? ? []].
    + intros ? a ?. simpl. case_decide; [apply merge_appointment_empty|done].
  - f_equal. unfold set_appointments. simpl. f_equal. f_equal.
    rewrite <- list_fmap_compose. apply list_fmap_ext. intros ? a ?. simpl.
    destruct (decide (ap_id a = aid)) as [Ha|Ha].
    + rewrite decide_True by done. apply merge_appointment_twice.
    + by rewrite decide_False.
  - rewrite <- list_fmap_compose. apply list_fmap_ext. intros ? a ?. simpl.
    by case_decide.
Qed.

Lemma create_appointment_success data d id d1 :
  api_appointments_create data d = (Json [("id", JInt id)] 201, d1) →
  id = next_rowid (appointments d)
  ∧ ∃ a, ap_id a = id ∧ ap_status a = "Scheduled"
         ∧ d1 = set_appointments (Table (rows (appointments d) ++ [a]) id) d.
Proof.
  unfold api_appointments_create, insert_appointment, insert.
  repeat case_match; intros; simplify_eq/=. split; [done|].
  eexists. by repeat split.
Qed.

(** X7. Deleting the appointment that [api_appointments_create] just made
    gives back the rows there were, and its id is not given out again: the
    next appointment created gets a greater id. *)
Theorem appointment_create_then_delete data d id d1 :
  api_appointments_create data d = (Json [("id", JInt id)] 201, d1) →
  in_int64 id = true →
  let d2 := (api_appointments_delete id d1).2 in
  rows (appointments d2) = rows (appointments d)
  ∧ d2 = set_appointments (appointments d2) d
  ∧ ∀ data' id' d3,
      api_appointments_create data' d2 = (Json [("id", JInt id')] 201, d3) →
      id < id'.
Proof.
  intros (-> & a & Hid & _ & ->)%create_appointment_success Hfit d2.
  subst d2. unfold api_appointments_delete. rewrite Hfit. simpl.
  assert (filter (λ a0, ap_id a0 ≠ next_rowid (appointments d))
                 (rows (appointments d) ++ [a]) = rows (appointments d)) as Hrows.
  { rewrite filter_app, filter_cons_False by (by intros Hne; apply Hne).
    rewrite filter_nil, app_nil_r.
    assert (Forall (λ a0, ap_id a0 ≠ next_rowid (appointments d))
                   (rows (appointments d))) as Hold.
    { apply Forall_forall. intros a0 Ha0%next_rowid_fresh.
      change (rowid a0) with (ap_id a0) in Ha0. lia. }
    induction Hold as [|a0 l Ha0 _ IH]; [done|].
    rewrite filter_cons_True by done. by rewrite IH. }
  unfold delete. simpl. rewrite Hrows. repeat split.
  intros data' id' d3 (-> & _)%create_appointment_success.
  unfold next_rowid. simpl. lia.
Qed.

Lemma appointment_create_then_delete_witness :
  rows (appointments
          (api_appointments_delete 1
             (api_appointments_create
                {[ "usn" := "P1"; "starts_at" := "2024-05-01T10:00";
                   "ends_at" := "2024-05-01T10:30" ]} ward).2).2)
  = rows (appointments ward).
Proof.
  apply (appointment_create_then_delete
           {[ "usn" := "P1"; "starts_at" := "2024-05-01T10:00";
              "ends_at" := "2024-05-01T10:30" ]} ward 1
           (api_appointments_create
              {[ "usn" := "P1"; "starts_at" := "2024-05-01T10:00";
                 "ends_at" := "2024-05-01T10:30" ]} ward).2);
    by vm_compute.
Defined.

(** X8. [api_appointments_list] answers in descending order of start. With
    a usn it lists exactly the appointments of that patient. Without one it
    lists at most 200, and they are the latest: together with the ones it
    leaves out they are all the appointments, and none left out starts after
    one listed. *)
Theorem appointments_list_latest args d :
  let l := api_appointments_list args d in
  StronglySorted by_starts_at_desc l
  ∧ (Py.field args "usn" ≠ "" →
     l ≡ₚ filter (λ a, ap_usn a = Py.field args "usn") (rows (appointments d)))
  ∧ (Py.field args "usn" = "" →
     (length l ≤ 200)%nat
     ∧ ∃ omitted, l ++ omitted ≡ₚ rows (appointments d)
                  ∧ ∀ a b, a ∈ l → b ∈ omitted → by_starts_at_desc a b).
Proof.
  unfold api_appointments_list.
  destruct (Py.truthy (Py.field args "usn")) eqn:Husn; simpl.
  - apply truthy_true in Husn. split; [apply StronglySorted_merge_sort; apply _|].
    split; [intros _; apply merge_sort_Permutation|done].
  - apply truthy_false in Husn.
    pose proof (StronglySorted_merge_sort by_starts_at_desc
                  (rows (appointments d))) as Hsorted.
    rewrite <- (take_drop 200 (merge_sort _ _)) in Hsorted.
    split; [by apply StronglySorted_app_1_l in Hsorted|].
    split; [done|]. intros _. split; [apply firstn_le_length|].
    exists (drop 200 (merge_sort by_starts_at_desc (rows (appointments d)))).
    split; [by rewrite take_drop, merge_sort_Permutation|].
    intros a b. by apply StronglySorted_app_1_elem_of.
Qed.

Lemma appointments_list_latest_witness :
  api_appointments_list {[ "usn" := "P1" ]} busy_ward
  ≡ₚ filter (λ a, ap_usn a = "P1") (rows (appointments busy_ward)).
Proof.
  destruct (appointments_list_latest {[ "usn" := "P1" ]} busy_ward)
    as (_ & Hmine & _).
  apply Hmine. by vm_compute.
Defined.

(** ** Primary keys *)

Section Keyed.

Context `{Rowid R}.

Lemma keyed_append (t : table R) r i :
  rowid r = next_rowid t → keyed t → keyed (Table (rows t ++ [r]) i).
Proof.
  unfold keyed. simpl. intros Hr Hnd. rewrite fmap_app.
  apply NoDup_app. split; [done|]. split; [|apply NoDup_singleton].
  intros j (r' & -> & Hr'%next_rowid_fresh)%list_elem_of_fmap.
  simpl. intros ?%list_elem_of_singleton. lia.
Qed.

Lemma keyed_update (P : R → Prop) `{∀ r, Decision (P r)} (f : R → R) t :
  (∀ r, rowid (f r) = rowid r) → keyed t → keyed (update P f t).
Proof.
  unfold keyed, update. simpl. intros Hf Hnd. rewrite <- list_fmap_compose.
  erewrite list_fmap_ext; [exact Hnd|].
  intros ? r ?. simpl. by case_decide.
Qed.

Lemma keyed_delete (P : R → Prop) `{∀ r, Decision (P r)} t :
  keyed t → keyed (delete P t).
Proof.
  unfold keyed, delete. simpl. intros Hnd.
  eapply sublist_NoDup; [exact Hnd|]. apply fmap_sublist, sublist_filter.
Qed.

End Keyed.

Lemma usns_insert r d :
  select_patient (p_usn r) d = None →
  NoDup (p_usn <$> patients d) → NoDup (p_usn <$> patients d ++ [r]).
Proof.
  intros Hnone Hnd. rewrite fmap_app. apply NoDup_app.
  split; [done|]. split; [|apply NoDup_singleton].
  intros u (p & -> & Hp)%list_elem_of_fmap ?%list_elem_of_singleton.
  unfold select_patient in Hnone. apply fetchone_None in Hnone.
  rewrite Forall_forall in Hnone. by apply (Hnone p).
Qed.

Lemma usns_update usn full_name age gender contact address (l : list patient) :
  p_usn <$> ((λ p, if decide (p_usn p = usn)
                   then Patient (p_usn p) full_name age gender contact address
                   else p) <$> l)
  = p_usn <$> l.
Proof.
  rewrite <- list_fmap_compose. apply list_fmap_ext.
  intros ? p ?. simpl. by case_decide.
Qed.

Lemma usns_delete (P : patient → Prop) `{∀ p, Decision (P p)} (l : list patient) :
  NoDup (p_usn <$> l) → NoDup (p_usn <$> filter P l).
Proof.
  intros Hnd. eapply sublist_NoDup; [exact Hnd|].
  apply fmap_sublist, sublist_filter.
Qed.

Lemma delete_patient_keys usn d : keys_ok d → keys_ok (delete_patient usn d).
Proof.
  unfold delete_patient. case_match; [|done].
  intros (Hp & Hv & Hrx & Hen & Hpb & Hal & Hm & Hpi & Hlt & Hlo & Hloi & Hap).
  unfold keys_ok. simpl.
  repeat split; try done; try (by apply keyed_delete); [by apply usns_delete|].
  apply keyed_update; [done|]. by apply keyed_delete.
Qed.

Ltac keys_frame :=
  unfold keys_ok in *; simpl;
  repeat match goal with
         | H : _ ∧ _ |- _ => destruct H
         end;
  repeat split; try done;
  first [ by apply usns_insert
        | by rewrite usns_update
        | by apply keyed_append
        | by apply keyed_update
        | by apply keyed_delete ].

(** X9. Every handler keeps the primary keys of the twelve tables: no two
    patients share a usn and no two rows of another table share an id. *)
Theorem handlers_keep_keys float now r d :
  keys_ok d → keys_ok (handle float now r d).2.
Proof.
  intros Hk. destruct r; simpl; try (by apply delete_patient_keys);
    unfold_handlers; unfold_statements; unfold insert, update, delete;
    repeat case_match; simplify_eq/=; try done; keys_frame.
Qed.

Lemma handlers_keep_keys_witness :
  keys_ok (handle whole "2024-05-01T10:00"
             (PatientCreate (patient_form "P9" "Ada" "41")) ward).2.
Proof.
  apply handlers_keep_keys. unfold keys_ok, keyed.
  apply (bool_decide_unpack _). by vm_compute.
Defined.

(** ** Foreign keys *)

Lemma is_Some_fetchone_app {R} (P : R → Prop) `{∀ r, Decision (P r)} l l' :
  is_Some (fetchone P l) → is_Some (fetchone P (l ++ l')).
Proof. intros [r Hr]. exists r. by apply fetchone_app. Qed.

Lemma is_Some_fetchone_fmap {R} (P : R → Prop) `{∀ r, Decision (P r)}
    (g : R → R) l :
  (∀ r, P (g r) ↔ P r) →
  is_Some (fetchone P l) → is_Some (fetchone P (g <$> l)).
Proof. intros Hg [r Hr]. rewrite fetchone_fmap, Hr by done. by eexists. Qed.

Lemma is_Some_fetchone_filter {R} (P Q : R → Prop) `{∀ r, Decision (P r)}
    `{∀ r, Decision (Q r)} l :
  (∀ r, r ∈ l → P r → Q r) →
  is_Some (fetchone P l) → is_Some (fetchone P (filter Q l)).
Proof.
  intros HPQ [r [Hr HP]%fetchone_Some]. apply (fetchone_elem _ _ r); [|done].
  apply list_elem_of_filter. auto.
Qed.

Ltac refs_mono :=
  eapply Forall_impl; [eassumption|];
  let i := fresh "i" in
  intros i [? ?]; split; try done;
  first [ by apply is_Some_fetchone_app
        | apply is_Some_fetchone_fmap; [|done];
          let o := fresh "o" in intros o; by case_decide ].

Lemma delete_patient_item_refs usn d :
  item_refs_ok d → item_refs_ok (delete_patient usn d).
Proof.
  unfold delete_patient. case_match; [|done].
  intros [Hloi Hpi]. unfold item_refs_ok, delete, update. simpl. split.
  - apply Forall_forall. intros i [Hkeep Hi]%list_elem_of_filter.
    rewrite Forall_forall in Hloi. destruct (Hloi i Hi) as [Ho Ht].
    split; [|done].
    apply is_Some_fetchone_fmap; [intros o; by case_decide|].
    apply is_Some_fetchone_filter; [|done].
    intros o Ho' Hid Husn. apply Hkeep. rewrite <- Hid.
    apply list_elem_of_fmap. exists o. split; [done|].
    by apply list_elem_of_filter.
  - apply Forall_forall. intros i [Hkeep Hi]%list_elem_of_filter.
    rewrite Forall_forall in Hpi. destruct (Hpi i Hi) as [Hr Hm].
    split; [|done].
    apply is_Some_fetchone_filter; [|done].
    intros r Hr' Hid Husn. apply Hkeep. rewrite <- Hid.
    apply list_elem_of_fmap. exists r. split; [done|].
    by apply list_elem_of_filter.
Qed.

Lemma set_lab_result_item_refs item_id data now d :
  item_refs_ok d → item_refs_ok (api_set_lab_result item_id data now d).2.
Proof.
  unfold api_set_lab_result. case_match; [done|].
  intros [Hloi Hpi]. unfold item_refs_ok. simpl. split; [|done].
  unfold refresh_order_status, update. simpl. apply Forall_fmap.
  eapply Forall_impl; [exact Hloi|]. intros i [Ho Ht]. simpl.
  split.
  - apply is_Some_fetchone_fmap; [intros o; by repeat case_decide|].
    by case_decide.
  - by case_decide.
Qed.

Lemma handle_item_refs float now r d :
  item_refs_ok d → item_refs_ok (handle float now r d).2.
Proof.
  intros Hok. destruct r; simpl;
    try (by apply delete_patient_item_refs);
    try (by apply set_lab_result_item_refs);
    unfold_handlers; unfold_statements; unfold insert, update, delete;
    repeat case_match; simplify_eq/=; try done;
    destruct Hok as [Hloi Hpi]; unfold item_refs_ok; simpl;
    (split; [try done|try done]).
  all: try refs_mono.
  all: apply Forall_app; split; [first [done|refs_mono]|];
    (constructor; [split; simpl; eexists; eassumption|constructor]).
Qed.

Lemma reachable_item_refs float d : reachable float d → item_refs_ok d.
Proof.
  induction 1 as [d ->|now r d _ IH]; [by split; constructor|].
  by apply handle_item_refs.
Qed.

(** X10. In every database the handlers produce from a catalogue of lab
    tests, each foreign key of the schema resolves: the rows of the seven
    tables that name a patient name an existing one, a lab order item names
    an existing order and an existing test, and a prescription item names an
    existing prescription and an existing medication. *)
Theorem reachable_foreign_keys float d :
  reachable float d → patient_refs_ok d ∧ item_refs_ok d.
Proof.
  intros Hd. split; [by eapply reachable_refs|by eapply reachable_item_refs].
Qed.

Lemma reachable_foreign_keys_witness :
  patient_refs_ok busy_ward ∧ item_refs_ok busy_ward.
Proof.
  apply (reachable_foreign_keys whole). apply reachable_run.
  by apply reachable_initial.
Defined.

(** ** A lab order from creation to completion *)

Lemma create_lab_order_success data now d id d1 :
  api_create_lab_order data now d = (Json [("id", JInt id)] 201, d1) →
  id = next_rowid (lab_orders d)
  ∧ ∃ test notes,
      d1 = set_lab_order_items
             (Table (rows (lab_order_items d)
                     ++ [LabOrderItem (next_rowid (lab_order_items d)) id test
                                      "Ordered" None None None])
                    (next_rowid (lab_order_items d)))
             (set_lab_orders
                (Table (rows (lab_orders d)
                        ++ [LabOrder id (Py.field data "usn") None now "Ordered"
                                     notes]) id) d).
Proof.
  unfold api_create_lab_order, insert_lab_order, insert_lab_order_item, insert.
  repeat case_match; intros; simplify_eq/=. eauto.
Qed.

Lemma fetchone_head {R} (P : R → Prop) `{∀ r, Decision (P r)} r l :
  P r → fetchone P (r :: l) = Some r.
Proof. intros HP. unfold fetchone. by rewrite filter_cons_True. Qed.

(** X11. The order [api_create_lab_order] makes is completed by one call of
    [api_set_lab_result] on its item, whose id is the next one of
    [lab_order_items]: the order is 'Ordered' before and 'Completed' after,
    and the orders there were before are as they were. *)
Theorem lab_order_completed_by_its_result data now d id d1 body now' :
  item_refs_ok d →
  api_create_lab_order data now d = (Json [("id", JInt id)] 201, d1) →
  let item_id := next_rowid (lab_order_items d) in
  in_int64 item_id = true →
  let d2 := (api_set_lab_result item_id body now' d1).2 in
  ∃ o, rows (lab_orders d1) = rows (lab_orders d) ++ [o]
       ∧ lo_id o = id ∧ lo_status o = "Ordered"
       ∧ rows (lab_orders d2)
         = rows (lab_orders d)
           ++ [LabOrder id (lo_usn o) (lo_encounter_id o) (lo_ordered_at o)
                        "Completed" (lo_notes o)].
Proof.
  intros [Hloi _] (-> & test & notes & ->)%create_lab_order_success item_id Hfit d2.
  eexists. split; [reflexivity|]. split; [done|]. split; [done|].
  subst d2. rewrite set_lab_result_orders, set_lab_result_items by done.
  unfold refresh_order_status. rewrite owner_after_update. simpl.
  assert (fetchone (λ i, loi_id i = item_id) (rows (lab_order_items d)) = None)
    as Hfresh.
  { apply fetchone_None, Forall_forall. intros i Hi%next_rowid_fresh.
    change (rowid i) with (loi_id i) in Hi. subst item_id. lia. }
  rewrite (fetchone_app_None _ _ _ Hfresh).
  rewrite (fetchone_head (λ i, loi_id i = item_id)) by done. simpl.
  rewrite fmap_app. f_equal.
  - rewrite <- (list_fmap_id (rows (lab_orders d))) at 2.
    apply list_fmap_ext. intros ? o Ho%list_elem_of_lookup_2%next_rowid_fresh.
    change (rowid o) with (lo_id o) in Ho.
    case_decide as Heq; [|done]. injection Heq as Heq. lia.
  - simpl. rewrite decide_True by done. do 2 f_equal.
    case_decide as Hopen; [|done]. exfalso.
    apply Exists_exists in Hopen as (i' & Hin & Hid & Hst). simpl in Hid.
    apply list_elem_of_fmap in Hin as (i & -> & [Hi| ->%list_elem_of_singleton]%elem_of_app).
    + rewrite Forall_forall in Hloi.
      destruct (Hloi i Hi) as [[o [Ho Hoid]%fetchone_Some] _].
      apply next_rowid_fresh in Ho. change (rowid o) with (lo_id o) in Ho.
      assert (loi_lab_order_id i = next_rowid (lab_orders d)) as Hnew
        by (by case_decide).
      lia.
    + simpl in Hst. by rewrite decide_True in Hst.
Qed.

Lemma lab_order_completed_by_its_result_witness :
  ∃ o, rows (lab_orders
               (api_create_lab_order {[ "usn" := "P1"; "test_code" := "CBC" ]}
                  "2024-03-01T09:00:00" ward).2)
       = rows (lab_orders ward) ++ [o]
       ∧ lo_status o = "Ordered"
       ∧ lo_status
           <$> rows (lab_orders
                       (api_set_lab_result 1 {[ "result_value" := "13.5" ]}
                          "2024-03-01T10:00:00"
                          (api_create_lab_order
                             {[ "usn" := "P1"; "test_code" := "CBC" ]}
                             "2024-03-01T09:00:00" ward).2).2)
         = ["Completed"].
Proof.
  destruct (lab_order_completed_by_its_result
              {[ "usn" := "P1"; "test_code" := "CBC" ]} "2024-03-01T09:00:00"
              ward 1
              (api_create_lab_order {[ "usn" := "P1"; "test_code" := "CBC" ]}
                 "2024-03-01T09:00:00" ward).2
              {[ "result_value" := "13.5" ]} "2024-03-01T10:00:00")
    as (o & Hrows & _ & Hst & Hdone).
  - by split; constructor.
  - by vm_compute.
  - by vm_compute.
  - exists o. split; [done|]. split; [done|].
    change (next_rowid (lab_order_items ward)) with 1 in Hdone.
    by rewrite Hdone.
Defined.


(** ** Printing a prescription *)

Lemma prescription_item_create_success form d d' :
  prescription_item_create form d
  = (Redirect [("m", "Medication added to prescription")], d') →
  ∃ rx r med item,
    Py.int (Py.field form "prescription_id") = Some rx
    ∧ in_int64 rx = true
    ∧ fetchone (λ r, rx_id r = rx) (rows (prescriptions d)) = Some r
    ∧ med ∈ rows (medications d') ∧ m_name med = Py.field form "med_name"
    ∧ (∀ m, m ∈ rows (medications d) → m ∈ rows (medications d'))
    ∧ pi_id item = next_rowid (prescription_items d)
    ∧ pi_prescription_id item = rx ∧ pi_medication_id item = m_id med
    ∧ pi_dose item = Some (Py.field form "dose")
    ∧ pi_route item = Some (Py.field form "route")
    ∧ pi_frequency item = Some (Py.field form "frequency")
    ∧ rows (prescription_items d') = rows (prescription_items d) ++ [item]
    ∧ prescriptions d' = prescriptions d ∧ patients d' = patients d.
Proof.
  unfold prescription_item_create, insert_prescription_item, insert_medication,
    insert.
  repeat case_match; intros; simplify_eq/=.
  all: repeat match goal with
         | H : negb _ = false |- _ => apply negb_false_iff in H
         | H : _ && _ = true |- _ => apply andb_prop in H as [? ?]
         | H : fetchone (λ m, m_name m = _) _ = Some _ |- _ =>
             apply fetchone_Some in H as [? ?]
         end.
  all: do 3 eexists; eexists (PrescriptionItem _ _ _ _ _ _ _ _); simpl.
  all: repeat split; try done; try eassumption;
    try (apply elem_of_app; right; apply list_elem_of_singleton; reflexivity);
    try set_solver.
Qed.

(** X12. After [prescription_item_create] has accepted a form,
    [prescription_print] of the prescription named in the form finds it and
    lists the new item under the medication name of the form, with the dose,
    route and frequency of the form; the items it listed before are still
    listed. *)
Theorem prescription_print_lists_new_item form d d' :
  prescription_item_create form d
  = (Redirect [("m", "Medication added to prescription")], d') →
  ∃ rx r items item,
    Py.int (Py.field form "prescription_id") = Some rx
    ∧ prescription_print rx d'
      = inr (PrintRx r (select_patient (rx_usn r) d) items)
    ∧ rx_id r = rx
    ∧ (item, Py.field form "med_name") ∈ items
    ∧ pi_id item = next_rowid (prescription_items d)
    ∧ pi_dose item = Some (Py.field form "dose")
    ∧ pi_route item = Some (Py.field form "route")
    ∧ pi_frequency item = Some (Py.field form "frequency")
    ∧ ∀ e, e ∈ print_items rx d → e ∈ items.
Proof.
  intros (rx & r & med & item & Hint & Hfit & Hr & Hmed & Hname & Hmeds & Hid
          & Hrx & Hmid & Hdose & Hroute & Hfreq & Hitems & Hprs & Hpats)
         %prescription_item_create_success.
  exists rx, r, (print_items rx d'), item.
  split; [done|]. split.
  { unfold prescription_print, select_patient. by rewrite Hfit, Hprs, Hr, Hpats. }
  split; [by apply fetchone_Some in Hr as [_ ?]|].
  unfold print_items. rewrite Hitems.
  repeat split; try done.
  - rewrite merge_sort_Permutation. apply elem_of_concat.
    eexists. split; [|apply list_elem_of_fmap; exists item; split; [done|]].
    + apply list_elem_of_fmap. exists med. split; [by rewrite Hname|].
      by apply list_elem_of_filter.
    + apply list_elem_of_filter. split; [done|]. set_solver.
  - intros e. rewrite !merge_sort_Permutation, !elem_of_concat.
    intros (l & He & (i & -> & [Hi Hin]%list_elem_of_filter)%list_elem_of_fmap).
    apply list_elem_of_fmap in He as (m & -> & [Hm Hmin]%list_elem_of_filter).
    eexists. split; [|apply list_elem_of_fmap; exists i; split; [done|]].
    + apply list_elem_of_fmap. exists m. split; [done|].
      apply list_elem_of_filter. auto.
    + apply list_elem_of_filter. split; [done|]. set_solver.
Qed.

Lemma prescription_print_lists_new_item_witness :
  ∃ rx r items item,
    Py.int (Py.field (item_form "Paracetamol" "500 mg") "prescription_id") = Some rx
    ∧ prescription_print rx (prescription_item_create
                               (item_form "Paracetamol" "500 mg") pharmacy).2
      = inr (PrintRx r (select_patient (rx_usn r) pharmacy) items)
    ∧ rx_id r = rx
    ∧ (item, Py.field (item_form "Paracetamol" "500 mg") "med_name") ∈ items
    ∧ pi_id item = next_rowid (prescription_items pharmacy)
    ∧ pi_dose item = Some (Py.field (item_form "Paracetamol" "500 mg") "dose")
    ∧ pi_route item = Some (Py.field (item_form "Paracetamol" "500 mg") "route")
    ∧ pi_frequency item
      = Some (Py.field (item_form "Paracetamol" "500 mg") "frequency")
    ∧ ∀ e, e ∈ print_items rx pharmacy → e ∈ items.
Proof.
  apply (prescription_print_lists_new_item (item_form "Paracetamol" "500 mg")
           pharmacy). by vm_compute.
Defined.

(** ** The vitals export *)

#[local] Instance by_joined_recorded_at_desc_trans :
  Transitive by_joined_recorded_at_desc.
Proof.
  intros a b c Hab Hbc. unfold by_joined_recorded_at_desc in *.
  by eapply leb_trans.
Qed.

#[local] Instance by_joined_recorded_at_desc_total :
  Total by_joined_recorded_at_desc.
Proof.
  intros a b. unfold by_joined_recorded_at_desc. apply or_comm, String.leb_total.
Qed.





(** ** Creating and deleting a patient *)

Lemma filter_all {A} (P : A → Prop) `{∀ x, Decision (P x)} (l : list A) :
  Forall P l → filter P l = l.
Proof.
  induction 1 as [|x l Hx _ IH]; [done|].
  by rewrite filter_cons_True, IH.
Qed.

Lemma filter_none {A} (P : A → Prop) `{∀ x, Decision (P x)} (l : list A) :
  Forall (λ x, ¬ P x) l → filter P l = [].
Proof.
  induction 1 as [|x l Hx _ IH]; [done|].
  by rewrite filter_cons_False.
Qed.

(** X14. In a database where every row names an existing patient, deleting
    the patient that [patient_create] has just created gives back the
    database as it was before the creation. *)
Theorem patient_create_then_delete form d d1 :
  patient_refs_ok d →
  patient_create form d = (Redirect [("m", "Patient created")], d1) →
  (patient_delete (Py.field form "usn") d1).2 = d.
Proof.
  intros Hrefs Hcreate.
  assert (select_patient (Py.field form "usn") d = None
          ∧ ∃ p, p_usn p = Py.field form "usn"
                 ∧ d1 = set_patients (patients d ++ [p]) d) as (Hnone & p & Hp & ->).
  { revert Hcreate. unfold patient_create, insert_patient.
    repeat case_match; intros; simplify_eq/=; (split; [done|]);
      eexists; (split; [|reflexivity]); done. }
  pose proof (unknown_no_dependents _ _ Hrefs Hnone)
    as (Hv & Hrx & Hen & Hpb & Hal & Hlo & Hap).
  simpl. unfold delete_patient, select_patient. simpl.
  apply fetchone_None in Hnone.
  rewrite (fetchone_app_None _ _ _ (proj2 (fetchone_None _ _) Hnone)).
  rewrite (fetchone_head (λ q, p_usn q = Py.field form "usn")) by done.
  rewrite filter_app, (filter_all _ _ Hnone).
  rewrite (filter_cons_False _ p) by (by intros Hne).
  rewrite filter_nil, app_nil_r.
  rewrite (filter_none _ _ Hrx), (filter_none _ _ Hen), (filter_none _ _ Hlo).
  rewrite (delete_none (λ v, v_usn v = _)), (delete_none (λ r, rx_usn r = _)),
    (delete_none (λ e, en_usn e = _)), (delete_none (λ b, pb_usn b = _)),
    (delete_none (λ a, al_usn a = _)), (delete_none (λ o, lo_usn o = _)),
    (delete_none (λ a, ap_usn a = _)) by done.
  rewrite (delete_none (λ i, pi_prescription_id i ∈ _)),
    (delete_none (λ i, loi_lab_order_id i ∈ _))
    by (apply Forall_forall; intros ? _; apply not_elem_of_nil).
  rewrite update_none; [apply db_eta|].
  apply Forall_forall. intros o _. unfold in_encounters.
  destruct (lo_encounter_id o); simpl; [apply not_elem_of_nil|tauto].
Qed.

Lemma patient_create_then_delete_witness :
  (patient_delete "P9" (patient_create (patient_form "P9" "Ada" "41") ward).2).2
  = ward.
Proof.
  apply (patient_create_then_delete (patient_form "P9" "Ada" "41") ward).
  - apply (reachable_refs whole).
    apply (reachable_step whole "" (PatientCreate (patient_form "P1" "Ann" "30"))
             catalogue).
    by apply reachable_initial.
  - by vm_compute.
Defined.


(** ** Serving requests *)

(** X15. As long as the catalogue of lab tests is empty, [ensure_db] ends
    every request in the [NameError] of [init_db], before the handler runs
    and without a change to the tables; once the catalogue has a row, a
    request is answered by its handler. *)
Theorem serve_needs_catalogue float now r d :
  (rows (lab_tests d) = [] →
   serve float now r (Tables d) = (Raised (Py.NameError "NULL"), Tables d))
  ∧ (rows (lab_tests d) ≠ [] →
     serve float now r (Tables d)
     = ((handle float now r d).1, Tables (handle float now r d).2)).
Proof.
  unfold serve. split; intros Hcat.
  - by rewrite init_db_catalogue_empty.
  - unfold init_db. rewrite init_db_catalogue_present by done.
    by destruct (handle float now r d).
Qed.

Lemma serve_needs_catalogue_witness :
  serve whole "2024-03-01T07:00:00" (PatientCreate (patient_form "P1" "Ann" "30"))
        (Tables empty_db)
  = (Raised (Py.NameError "NULL"), Tables empty_db)
  ∧ serve whole "2024-03-01T07:00:00"
          (PatientCreate (patient_form "P1" "Ann" "30")) (Tables catalogue)
    = (Redirect [("m", "Patient created")], Tables ward).
Proof.
  split.
  - by apply (proj1 (serve_needs_catalogue whole "2024-03-01T07:00:00"
                       (PatientCreate (patient_form "P1" "Ann" "30")) empty_db)).
  - by apply (proj2 (serve_needs_catalogue whole "2024-03-01T07:00:00"
                       (PatientCreate (patient_form "P1" "Ann" "30")) catalogue)).
Defined.

(** X16. Started on a store without tables, the application never gets
    further: whatever requests were served before, the next one ends in
    [NameError] too and the store holds the empty tables. *)
Theorem serve_never_leaves_fresh_store float rs now r :
  let s := foldl (λ s q, (serve float q.1 q.2 s).2) NoTables rs in
  serve float now r s = (Raised (Py.NameError "NULL"), Tables empty_db).
Proof.
  simpl.
  assert (foldl (λ s q, (serve float q.1 q.2 s).2) NoTables rs = NoTables
          ∨ foldl (λ s q, (serve float q.1 q.2 s).2) NoTables rs = Tables empty_db)
    as [-> | ->]; [|done..].
  induction rs as [|q rs IH] using rev_ind; [by left|].
  rewrite foldl_app. simpl. by destruct IH as [-> | ->]; right.
Qed.

(** ** Vitals with fields left out *)

(** X17. [vitals_create] takes a field that is left out of the form for
    the text 0: a form that holds nothing but the usn of an existing patient
    is accepted and stores a row of zeros whose BMI is NULL, while
    [api_vitals_post] refuses a body that holds nothing but the usn. *)
Theorem vitals_fields_left_out float usn now d :
  float "0" = Some 0%Q →
  Py.strip usn ≠ "" → is_Some (select_patient (Py.strip usn) d) →
  vitals_create float {[ "usn" := usn ]} now d
  = (Redirect [("m", "Vitals saved"); ("q", Py.strip usn)],
     set_vitals
       (Table (rows (vitals d)
               ++ [Vital (next_rowid (vitals d)) (Py.strip usn) 0 0 None 0 0 0 0
                         None None (Some "") now "System User"])
              (next_rowid (vitals d))) d)
  ∧ api_vitals_post float {[ "usn" := usn ]} now d
    = (Json [("error", JStr "Required vitals fields missing")] 400, d).
Proof.
  intros Hzero Husn [p Hp].
  assert (Py.truthy usn = true) as Hraw by (destruct usn; [by destruct Husn|done]).
  apply truthy_true in Husn. split.
  - unfold vitals_create, Py.field, Py.field_or.
    rewrite lookup_singleton_eq, !lookup_singleton_ne by done.
    unfold Py.or_. rewrite Hraw.
    change (Py.strip "0") with "0". change (Py.strip "") with "".
    cbn [forallb]. rewrite Husn. cbn [Py.truthy andb negb].
    rewrite Hzero. change (Py.int "0") with (Some 0).
    change (int_if_given "") with (@Some (option Z) None). cbn iota beta.
    rewrite Hp. unfold insert_vital. cbn [option_list app forallb].
    change (negb _) with false. cbn iota. by rewrite Hp.
  - unfold api_vitals_post, Py.field, Py.field_or.
    rewrite lookup_singleton_eq, !lookup_singleton_ne by done. simpl.
    by rewrite orb_true_r.
Qed.

Lemma vitals_fields_left_out_witness :
  (vitals_create whole {[ "usn" := " P1 " ]} "2024-03-01T08:00:00" ward).1
  = Redirect [("m", "Vitals saved"); ("q", "P1")].
Proof.
  by rewrite (proj1 (vitals_fields_left_out whole " P1 " "2024-03-01T08:00:00"
                       ward eq_refl ltac:(done) ltac:(by eexists))).
Defined.

(** ** The text columns of a patient *)

Lemma forallb_truthy_cons s l :
  forallb Py.truthy (s :: l) = true ↔ s ≠ "" ∧ forallb Py.truthy l = true.
Proof. simpl. by rewrite andb_true_iff, truthy_true. Qed.

Lemma handle_named float now r d :
  Forall patient_named (patients d) →
  Forall patient_named (patients (handle float now r d).2).
Proof.
  intros Hnamed. destruct r; simpl; unfold_handlers; unfold_statements;
    unfold delete_patient, insert_medication, insert;
    repeat case_match; simplify_eq/=; try done.
  all: repeat match goal with
         | H : negb _ = false |- _ => apply negb_false_iff in H
         | H : _ && _ = true |- _ => apply andb_prop in H as [? ?]
         | H : Py.truthy _ = true |- _ => apply truthy_true in H
         end.
  all: try (apply Forall_app; split; [done|];
            by repeat constructor).
  all: try (apply Forall_fmap; eapply Forall_impl; [exact Hnamed|];
            intros q (? & ? & ?); simpl; case_decide; by repeat split).
  all: try (apply Forall_forall; intros q [_ Hq]%list_elem_of_filter;
            rewrite Forall_forall in Hnamed; by apply Hnamed).
Qed.

(** X18. In every database the handlers produce, each patient has a usn,
    a full name and a gender that are not empty. *)
Theorem reachable_patients_named float d :
  reachable float d → Forall patient_named (patients d).
Proof.
  induction 1 as [d ->|now r d _ IH]; [constructor|].
  by apply handle_named.
Qed.

Lemma reachable_patients_named_witness : Forall patient_named (patients busy_ward).
Proof.
  apply (reachable_patients_named whole). apply reachable_run.
  by apply reachable_initial.
Defined.

(** ** Prescriptions made through the API *)

(** X19. [api_prescriptions_post] keeps the medications it is sent as text
    in the notes only: it writes no row to [medications] or
    [prescription_items], and the prescription it has created, whose id is
    the next one of [prescriptions], prints without items. *)
Theorem api_prescription_prints_without_items data meds now d d1 :
  item_refs_ok d →
  api_prescriptions_post data meds now d
  = (Json [("message", JStr "Prescription created successfully")] 201, d1) →
  let pid := next_rowid (prescriptions d) in
  in_int64 pid = true →
  medications d1 = medications d
  ∧ prescription_items d1 = prescription_items d
  ∧ prescription_print pid d1
    = inr (PrintRx (Prescription pid (Py.field data "usn")
                      (prescription_notes (Py.field data "diagnosis") meds
                         (Py.field data "notes") (Py.field data "followUpDate"))
                      now)
                   (select_patient (Py.field data "usn") d) []).
Proof.
  intros [_ Hpi] Hpost pid Hfit.
  assert (d1 = set_prescriptions
                 (Table (rows (prescriptions d)
                         ++ [Prescription pid (Py.field data "usn")
                               (prescription_notes (Py.field data "diagnosis") meds
                                  (Py.field data "notes")
                                  (Py.field data "followUpDate")) now]) pid) d)
    as ->.
  { revert Hpost. unfold api_prescriptions_post, insert_prescription, insert.
    repeat case_match; intros; by simplify_eq/=. }
  split; [done|]. split; [done|].
  unfold prescription_print. rewrite Hfit. simpl.
  assert (fetchone (λ r, rx_id r = pid) (rows (prescriptions d)) = None) as Hnew.
  { apply fetchone_None, Forall_forall. intros r Hr%next_rowid_fresh.
    change (rowid r) with (rx_id r) in Hr. subst pid. lia. }
  rewrite (fetchone_app_None _ _ _ Hnew).
  rewrite (fetchone_head (λ r, rx_id r = pid)) by done.
  unfold select_patient, print_items. simpl.
  rewrite (filter_none (λ i, pi_prescription_id i = pid)); [done|].
  eapply Forall_impl; [exact Hpi|]. intros i [[r [Hr Hid]%fetchone_Some] _].
  apply next_rowid_fresh in Hr. change (rowid r) with (rx_id r) in Hr.
  subst pid. lia.
Qed.

Lemma api_prescription_prints_without_items_witness :
  prescription_print 1
    (api_prescriptions_post {[ "usn" := "P1"; "diagnosis" := "Flu" ]}
       [{[ "name" := "Paracetamol"; "dosage" := "500 mg";
           "frequency" := "twice a day" ]}] "2024-04-01T09:00:00" ward).2
  = inr (PrintRx (Prescription 1 "P1"
                    (prescription_notes "Flu"
                       [{[ "name" := "Paracetamol"; "dosage" := "500 mg";
                           "frequency" := "twice a day" ]}] "" "")
                    "2024-04-01T09:00:00")
                 (select_patient "P1" ward) []).
Proof.
  destruct (api_prescription_prints_without_items
              {[ "usn" := "P1"; "diagnosis" := "Flu" ]}
              [{[ "name" := "Paracetamol"; "dosage" := "500 mg";
                  "frequency" := "twice a day" ]}] "2024-04-01T09:00:00" ward
              (api_prescriptions_post {[ "usn" := "P1"; "diagnosis" := "Flu" ]}
                 [{[ "name" := "Paracetamol"; "dosage" := "500 mg";
                     "frequency" := "twice a day" ]}] "2024-04-01T09:00:00"
                 ward).2) as (_ & _ & Hprint).
  - by split; constructor.
  - by vm_compute.
  - by vm_compute.
  - exact Hprint.
Defined.

(** ** The catalogue of lab tests *)

#[local] Instance by_test_name_trans : Transitive by_test_name.
Proof. intros a b c Hab Hbc. unfold by_test_name in *. by eapply leb_trans. Qed.

#[local] Instance by_test_name_total : Total by_test_name.
Proof. intros a b. unfold by_test_name. apply String.leb_total. Qed.

(** X20. [api_lab_tests] lists the active tests, each once, in the order of
    their names, and these are the tests [api_create_lab_order] accepts:
    for an existing patient, an order for a code is created exactly when a
    listed test has the code. *)
Theorem lab_test_orderable_iff_listed data now d :
  let usn := Py.field data "usn" in
  let code := Py.field data "test_code" in
  api_lab_tests d ≡ₚ filter (λ t, lt_is_active t = 1) (rows (lab_tests d))
  ∧ StronglySorted by_test_name (api_lab_tests d)
  ∧ (usn ≠ "" → code ≠ "" → is_Some (select_patient usn d) →
     (∃ id, (api_create_lab_order data now d).1 = Json [("id", JInt id)] 201)
     ↔ ∃ t, t ∈ api_lab_tests d ∧ lt_code t = code).
Proof.
  intros usn code. unfold api_lab_tests.
  split; [apply merge_sort_Permutation|].
  split; [apply StronglySorted_merge_sort; apply _|].
  intros Husn%truthy_true Hcode%truthy_true [p Hp].
  unfold api_create_lab_order. fold usn code. rewrite Husn, Hcode, Hp. simpl.
  destruct (fetchone (λ t, lt_code t = code ∧ lt_is_active t = 1)
                     (rows (lab_tests d))) as [test|] eqn:Htest.
  - apply fetchone_Some in Htest as (Hin & Hc & Hactive). split.
    + intros _. exists test. split; [|done].
      rewrite merge_sort_Permutation. by apply list_elem_of_filter.
    + intros _. unfold insert_lab_order, insert_lab_order_item, insert.
      fold usn. repeat case_match; simplify_eq/=; eauto.
      all: exfalso.
      all: repeat match goal with
             | H : fetchone _ _ = None |- _ =>
                 apply fetchone_None in H; rewrite Forall_forall in H
             end.
      all: match goal with
           | H : ∀ x, x ∈ rows (lab_tests _) → _ |- _ => by apply (H test Hin)
           | H : ∀ x, x ∈ _ ++ _ → _ |- _ =>
               eapply H;
               [apply elem_of_app; right; apply list_elem_of_singleton;
                reflexivity|done]
           end.
  - split; [by intros [id ?]|].
    intros (t & Ht & Hc). rewrite merge_sort_Permutation in Ht.
    apply list_elem_of_filter in Ht as [Hactive Ht].
    apply fetchone_None in Htest. rewrite Forall_forall in Htest.
    by destruct (Htest t Ht).
Qed.

Lemma lab_test_orderable_iff_listed_witness :
  (∃ id, (api_create_lab_order {[ "usn" := "P1"; "test_code" := "GLU" ]}
            "2024-03-01T09:00:00" ward).1 = Json [("id", JInt id)] 201)
  ↔ ∃ t, t ∈ api_lab_tests ward ∧ lt_code t = "GLU".
Proof.
  destruct (lab_test_orderable_iff_listed
              {[ "usn" := "P1"; "test_code" := "GLU" ]} "2024-03-01T09:00:00"
              ward) as (_ & _ & Hiff).
  apply Hiff; [done|done|by eexists].
Defined.

(** ** The export of [export_csv] *)

Lemma mapM_inl {A B} (f : A → Py.exn + B) (l : list A) e :
  Py.mapM f l = inl e → ∃ x, x ∈ l ∧ f x = inl e.
Proof.
  induction l as [|y l IH]; [done|]. simpl.
  destruct (f y) as [e'|b] eqn:Hy; simpl.
  - intros [= <-]. exists y. split; [by apply elem_of_cons; left|done].
  - destruct (Py.mapM f l) as [e'|bs]; simpl; [|done].
    intros [= <-]. destruct (IH eq_refl) as (x & Hx & Hfx).
    exists x. split; [by apply elem_of_cons; right|done].
Qed.

Lemma export_rows_of_without_vitals float_repr vm rx p e :
  vm !! p_usn p = None → export_rows_of float_repr vm rx p ≠ inl e.
Proof.
  intros Hv. unfold export_rows_of. rewrite Hv. simpl.
  destruct (filter _ rx) as [|r l]; [done|].
  generalize (r :: l). intros l'. induction l' as [|r' l' IH]; [done|].
  simpl. by destruct (Py.mapM _ l').
Qed.

(** X21. [export_csv] fails exactly when a patient has a vitals row: then
    it raises the [IndexError] of the column [blood_pressure], which the
    table does not have, and it raises nothing else; when it does not fail,
    what it writes begins with the header. *)
Theorem export_csv_fails_iff_vitals float_repr d :
  (export_csv float_repr d = inl no_such_column
   ↔ ∃ p w, p ∈ patients d ∧ w ∈ rows (vitals d) ∧ v_usn w = p_usn p)
  ∧ (∀ e, export_csv float_repr d = inl e → e = no_such_column)
  ∧ (∀ out, export_csv float_repr d = inr out → head out = Some export_header).
Proof.
  assert (∀ e, export_csv float_repr d = inl e →
               e = no_such_column
               ∧ ∃ p w, p ∈ patients d ∧ w ∈ rows (vitals d) ∧ v_usn w = p_usn p)
    as Hfail.
  { intros e. unfold export_csv.
    destruct (Py.mapM _ (patients d)) as [e'|rs] eqn:Hrows; simpl; [|done].
    intros [= <-]. apply mapM_inl in Hrows as (p & Hp & Hrow).
    split; [by eapply export_rows_of_only_raises|].
    destruct (vitals_map d !! p_usn p) as [v|] eqn:Hv.
    - assert (is_Some (vitals_map d !! p_usn p)) as Hsome by (by eexists).
      apply vitals_map_dom in Hsome as (w & Hw & Hu). by exists p, w.
    - by apply export_rows_of_without_vitals in Hrow. }
  split; [split|split].
  - intros Hraise. by apply Hfail in Hraise as [_ ?].
  - intros (p & w & Hp & Hw & Hu). by eapply export_csv_raises.
  - intros e He. by apply Hfail in He as [? _].
  - intros out. unfold export_csv.
    destruct (Py.mapM _ (patients d)); simpl; [done|]. by intros [= <-].
Qed.

Lemma export_csv_fails_iff_vitals_witness :
  export_csv (λ _, "") busy_ward = inl no_such_column.
Proof.
  destruct (export_csv_fails_iff_vitals (λ _, "") busy_ward) as ([_ Hraise] & _).
  apply Hraise.
  assert (∃ p, head (patients busy_ward) = Some p) as [p Hp]
    by (eexists; vm_compute; reflexivity).
  assert (∃ w, head (rows (vitals busy_ward)) = Some w) as [w Hw]
    by (eexists; vm_compute; reflexivity).
  exists p, w. split; [by apply head_Some_elem_of|].
  split; [by apply head_Some_elem_of|].
  revert Hp Hw. vm_compute. intros [= <-] [= <-]. reflexivity.
Defined.

(** ** Deleting a patient *)

Lemma filter_filter_implied {A} (P Q : A → Prop) `{∀ x, Decision (P x)}
    `{∀ x, Decision (Q x)} (l : list A) :
  (∀ x, P x → Q x) → filter P (filter Q l) = filter P l.
Proof.
  intros HPQ. induction l as [|x l IH]; [done|].
  destruct (decide (Q x)) as [HQ|HQ].
  - rewrite (filter_cons_True Q) by done.
    destruct (decide (P x)) as [HP|HP].
    + rewrite !(filter_cons_True P) by done. by rewrite IH.
    + rewrite !(filter_cons_False P) by done. done.
  - rewrite (filter_cons_False Q) by done.
    rewrite (filter_cons_False P) by (intros HP; by apply HQ, HPQ). done.
Qed.

Lemma filter_fmap_preserved {A} (P : A → Prop) `{∀ x, Decision (P x)}
    (g : A → A) (l : list A) :
  (∀ x, P (g x) ↔ P x) → filter P (g <$> l) = g <$> filter P l.
Proof.
  intros Hg. induction l as [|x l IH]; [done|]. rewrite fmap_cons.
  destruct (decide (P x)) as [HP|HP].
  - rewrite !filter_cons_True by (by rewrite ?Hg). by rewrite fmap_cons, IH.
  - rewrite !filter_cons_False by (by rewrite ?Hg). done.
Qed.

(** X22. [patient_delete] takes nothing from another patient: for a usn
    other than the deleted one, the patient rows, vitals, prescriptions,
    encounters, problems, allergies and appointments of that usn are the
    rows there were, its lab orders are the ones there were up to the
    encounter they point to, and the catalogues of medications and lab tests
    are unchanged. *)
Theorem patient_delete_spares_others usn u d :
  u ≠ usn →
  let d' := (patient_delete usn d).2 in
  filter (λ p, p_usn p = u) (patients d') = filter (λ p, p_usn p = u) (patients d)
  ∧ filter (λ v, v_usn v = u) (rows (vitals d'))
    = filter (λ v, v_usn v = u) (rows (vitals d))
  ∧ filter (λ r, rx_usn r = u) (rows (prescriptions d'))
    = filter (λ r, rx_usn r = u) (rows (prescriptions d))
  ∧ filter (λ e, en_usn e = u) (rows (encounters d'))
    = filter (λ e, en_usn e = u) (rows (encounters d))
  ∧ filter (λ b, pb_usn b = u) (rows (problems d'))
    = filter (λ b, pb_usn b = u) (rows (problems d))
  ∧ filter (λ a, al_usn a = u) (rows (allergies d'))
    = filter (λ a, al_usn a = u) (rows (allergies d))
  ∧ filter (λ a, ap_usn a = u) (rows (appointments d'))
    = filter (λ a, ap_usn a = u) (rows (appointments d))
  ∧ (λ o, (lo_id o, lo_ordered_at o, lo_status o, lo_notes o))
      <$> filter (λ o, lo_usn o = u) (rows (lab_orders d'))
    = (λ o, (lo_id o, lo_ordered_at o, lo_status o, lo_notes o))
        <$> filter (λ o, lo_usn o = u) (rows (lab_orders d))
  ∧ medications d' = medications d ∧ lab_tests d' = lab_tests d.
Proof.
  intros Hne. simpl. unfold delete_patient. case_match; [|done].
  unfold delete, update. simpl.
  rewrite !filter_filter_implied by (intros ? -> ; done).
  repeat split.
  rewrite filter_fmap_preserved by (intros o; by case_decide).
  rewrite filter_filter_implied by (intros ? -> ; done).
  rewrite <- list_fmap_compose. apply list_fmap_ext. intros ? o ?. simpl.
  by case_decide.
Qed.

Lemma patient_delete_spares_others_witness :
  filter (λ v, v_usn v = "P1") (rows (vitals (patient_delete "P2" busy_ward).2))
  = filter (λ v, v_usn v = "P1") (rows (vitals busy_ward)).
Proof.
  destruct (patient_delete_spares_others "P2" "P1" busy_ward) as (_ & Hv & _);
    [done|exact Hv].
Defined.

(** ** Recording a result twice *)

Lemma has_open_item_ext items items' o o' :
  lo_id o' = lo_id o →
  (λ i, (loi_lab_order_id i, loi_status i)) <$> items'
  = (λ i, (loi_lab_order_id i, loi_status i)) <$> items →
  has_open_item items' o' ↔ has_open_item items o.
Proof.
  intros Hid Hcols. unfold has_open_item. rewrite Hid.
  rewrite !Exists_exists. split.
  - intros (i & Hi & Ho & Hs).
    assert ((loi_lab_order_id i, loi_status i)
            ∈ (λ i, (loi_lab_order_id i, loi_status i)) <$> items) as Hin
      by (rewrite <- Hcols; apply list_elem_of_fmap; by exists i).
    apply list_elem_of_fmap in Hin as (j & [= Hjo Hjs] & Hj).
    exists j. split; [done|]. by rewrite <- Hjo, <- Hjs.
  - intros (i & Hi & Ho & Hs).
    assert ((loi_lab_order_id i, loi_status i)
            ∈ (λ i, (loi_lab_order_id i, loi_status i)) <$> items') as Hin
      by (rewrite Hcols; apply list_elem_of_fmap; by exists i).
    apply list_elem_of_fmap in Hin as (j & [= Hjo Hjs] & Hj).
    exists j. split; [done|]. by rewrite <- Hjo, <- Hjs.
Qed.

Lemma set_item_result_columns item_id value notes now value' notes' now' t :
  (λ i, (loi_lab_order_id i, loi_status i))
    <$> rows (set_item_result item_id value notes now t)
  = (λ i, (loi_lab_order_id i, loi_status i))
      <$> rows (set_item_result item_id value' notes' now' t).
Proof.
  rewrite !set_item_result_rows, <- !list_fmap_compose.
  apply list_fmap_ext. intros ? i ?. simpl. by case_decide.
Qed.

Lemma set_item_result_twice item_id value notes now value' notes' now' t :
  set_item_result item_id value' notes' now'
    (set_item_result item_id value notes now t)
  = set_item_result item_id value' notes' now' t.
Proof.
  unfold set_item_result, update. simpl. f_equal.
  rewrite <- list_fmap_compose. apply list_fmap_ext. intros ? i ?. simpl.
  destruct (decide (loi_id i = item_id)) as [Hi|Hi]; simpl;
    [by rewrite decide_True|by rewrite decide_False].
Qed.

Lemma refresh_order_status_ext item_id items items' t :
  loi_lab_order_id <$> fetchone (λ i, loi_id i = item_id) items'
  = loi_lab_order_id <$> fetchone (λ i, loi_id i = item_id) items →
  (λ i, (loi_lab_order_id i, loi_status i)) <$> items'
  = (λ i, (loi_lab_order_id i, loi_status i)) <$> items →
  refresh_order_status item_id items' t = refresh_order_status item_id items t.
Proof.
  intros Howner Hcols. unfold refresh_order_status, update. rewrite Howner.
  f_equal. apply list_fmap_ext. intros ? o ?. simpl.
  case_decide; [|done]. f_equal.
  apply decide_ext. by apply has_open_item_ext.
Qed.

Lemma refresh_order_status_twice item_id items t :
  refresh_order_status item_id items (refresh_order_status item_id items t)
  = refresh_order_status item_id items t.
Proof.
  unfold refresh_order_status, update. simpl. f_equal.
  rewrite <- list_fmap_compose. apply list_fmap_ext. intros ? o ?. simpl.
  destruct (decide (loi_lab_order_id <$> fetchone (λ i, loi_id i = item_id) items
                    = Some (lo_id o))) as [Howner|Howner]; simpl;
    [|by rewrite decide_False].
  rewrite decide_True by done. f_equal.
  destruct (decide (has_open_item items o)) as [Hopen|Hopen]; simpl.
  - by rewrite decide_True.
  - by rewrite decide_False.
Qed.

(** X23. [api_set_lab_result] does not look at the status of the item: a
    second result for the same item replaces the first. The database after
    both calls is the one the second call alone would have given, and the
    lab orders are as the first call left them. *)
Theorem lab_result_overwritten item_id data1 now1 data2 now2 d :
  let d1 := (api_set_lab_result item_id data1 now1 d).2 in
  let d2 := (api_set_lab_result item_id data2 now2 d1).2 in
  d2 = (api_set_lab_result item_id data2 now2 d).2
  ∧ lab_orders d2 = lab_orders d1.
Proof.
  simpl. destruct (in_int64 item_id) eqn:Hfit;
    [|unfold api_set_lab_result; by rewrite Hfit].
  assert (∀ data now d0,
            (api_set_lab_result item_id data now d0).2
            = set_lab_orders
                (refresh_order_status item_id
                   (rows (set_item_result item_id (Py.field data "result_value")
                            (Py.or_None (Py.field data "result_notes")) now
                            (lab_order_items d0)))
                   (lab_orders d0))
                (set_lab_order_items
                   (set_item_result item_id (Py.field data "result_value")
                      (Py.or_None (Py.field data "result_notes")) now
                      (lab_order_items d0)) d0)) as Hstep
    by (intros; unfold api_set_lab_result; by rewrite Hfit).
  rewrite !Hstep. unfold set_lab_orders, set_lab_order_items.
  cbn [lab_orders lab_order_items patients vitals prescriptions encounters
       problems allergies medications prescription_items lab_tests appointments].
  rewrite set_item_result_twice.
  assert (refresh_order_status item_id
            (rows (set_item_result item_id (Py.field data1 "result_value")
                     (Py.or_None (Py.field data1 "result_notes")) now1
                     (lab_order_items d)))
            (lab_orders d)
          = refresh_order_status item_id
              (rows (set_item_result item_id (Py.field data2 "result_value")
                       (Py.or_None (Py.field data2 "result_notes")) now2
                       (lab_order_items d)))
              (lab_orders d)) as Hsame.
  { apply refresh_order_status_ext.
    - by rewrite !owner_after_update.
    - apply set_item_result_columns. }
  rewrite Hsame, refresh_order_status_twice. done.
Qed.

(** ** Listing lab orders *)

Lemma create_lab_order_success_test data now d id d1 :
  api_create_lab_order data now d = (Json [("id", JInt id)] 201, d1) →
  ∃ t o i,
    t ∈ rows (lab_tests d) ∧ lt_code t = Py.field data "test_code"
    ∧ o = LabOrder id (Py.field data "usn") None now "Ordered"
                   (Py.or_None (Py.field data "notes"))
    ∧ i = LabOrderItem (next_rowid (lab_order_items d)) id (lt_id t) "Ordered"
                       None None None
    ∧ rows (lab_orders d1) = rows (lab_orders d) ++ [o]
    ∧ rows (lab_order_items d1) = rows (lab_order_items d) ++ [i]
    ∧ lab_tests d1 = lab_tests d.
Proof.
  unfold api_create_lab_order, insert_lab_order, insert_lab_order_item, insert.
  repeat case_match; intros; simplify_eq/=.
  match goal with
  | H : fetchone (λ x, lt_code x = _ ∧ _) _ = Some ?y |- _ =>
      apply fetchone_Some in H as (? & ? & ?); exists y
  end.
  do 2 eexists. by repeat split.
Qed.

(** X24. The order [api_create_lab_order] has created is found by
    [api_list_lab_orders] under the usn of the patient: the list has a row
    with the id of the order, the id of its item, which is the one
    [api_set_lab_result] takes, the code of the test ordered, and the
    status 'Ordered' for both. *)
Theorem lab_order_listed_after_creation data now d id d1 args :
  api_create_lab_order data now d = (Json [("id", JInt id)] 201, d1) →
  Py.field args "usn" = Py.field data "usn" →
  ∃ o i t,
    (o, i, t) ∈ api_list_lab_orders args d1
    ∧ lo_id o = id ∧ lo_usn o = Py.field data "usn" ∧ lo_status o = "Ordered"
    ∧ loi_id i = next_rowid (lab_order_items d) ∧ loi_status i = "Ordered"
    ∧ loi_result_value i = None
    ∧ lt_code t = Py.field data "test_code".
Proof.
  intros Hcreate Hargs.
  assert (Py.truthy (Py.field data "usn") = true) as Husn.
  { revert Hcreate. unfold api_create_lab_order.
    destruct (Py.truthy (Py.field data "usn")); [done|]. simpl. by intros [=]. }
  apply create_lab_order_success_test in Hcreate
    as (t & o & i & Ht & Hcode & Ho & Hi & Hos & His & Hts).
  exists o, i, t. split; [|subst o i; by repeat split].
  unfold api_list_lab_orders. rewrite Hargs, Husn.
  unfold lab_orders_joined. rewrite merge_sort_Permutation, Hos, His, Hts.
  apply elem_of_concat. eexists. split; last first.
  { apply list_elem_of_fmap. exists o. split; [reflexivity|].
    apply list_elem_of_filter. split; [by subst o|].
    apply elem_of_app. right. by apply list_elem_of_singleton. }
  apply elem_of_concat. eexists. split; last first.
  { apply list_elem_of_fmap. exists i. split; [reflexivity|].
    apply list_elem_of_filter. split; [by subst o i|].
    apply elem_of_app. right. by apply list_elem_of_singleton. }
  apply list_elem_of_fmap. exists t. split; [done|].
  apply list_elem_of_filter. split; [by subst i|done].
Qed.

Lemma lab_order_listed_after_creation_witness :
  ∃ o i t,
    (o, i, t) ∈ api_list_lab_orders {[ "usn" := "P1" ]}
                  (api_create_lab_order {[ "usn" := "P1"; "test_code" := "GLU" ]}
                     "2024-03-01T09:00:00" ward).2
    ∧ lo_id o = 1
    ∧ lo_usn o = Py.field {[ "usn" := "P1"; "test_code" := "GLU" ]} "usn"
    ∧ lo_status o = "Ordered"
    ∧ loi_id i = next_rowid (lab_order_items ward) ∧ loi_status i = "Ordered"
    ∧ loi_result_value i = None
    ∧ lt_code t = Py.field {[ "usn" := "P1"; "test_code" := "GLU" ]} "test_code".
Proof.
  apply (lab_order_listed_after_creation
           {[ "usn" := "P1"; "test_code" := "GLU" ]} "2024-03-01T09:00:00" ward 1
           (api_create_lab_order {[ "usn" := "P1"; "test_code" := "GLU" ]}
              "2024-03-01T09:00:00" ward).2 {[ "usn" := "P1" ]});
    by vm_compute.
Defined.
